(** * Real Estate API: listing retrieval and inquiry submission

    A shallow embedding of [main.py] (the FastAPI handlers [get_listings]
    and [create_inquiry], the response models and the fallback dataset) and
    of the [Listing] schema of [schemas.py].

    Python objects that are shared and could be mutated (the module-level
    list [DEMO_LISTINGS] and the [ListingOut] records it holds) live in an
    explicit heap; handlers are computations in a state-and-exception monad
    over that heap. *)

From Stdlib Require Import ZArith QArith String List.
From stdpp Require Import base option gmap strings list fin_maps.

Open Scope string_scope.
Open Scope Z_scope.

(** ** Python values held by documents and JSON bodies *)

(** The values a store document or a JSON request body can hold. A native
    identifier of the store is kept through the string that Python's [str]
    renders it to, the only way [main.py] ever looks at it. Floats are
    the rationals they denote. *)
Inductive Value :=
| VNone
| VBool (b : bool)
| VInt (z : Z)
| VFloat (q : Q)
| VStr (s : string)
| VStrList (l : list string)
| VDate (millis : Z)
| VObjectId (rendering : string).

#[global] Instance Q_eq_dec : EqDecision Q.
Proof. solve_decision. Defined.

#[global] Instance Value_eq_dec : EqDecision Value.
Proof. solve_decision. Defined.

(** ** Models (responses/payloads) *)

(** [class ListingOut(BaseModel)]. *)
Record ListingOut := {
  id : option string;
  title : string;
  address : string;
  city : string;
  state : string;
  price : Z;
  beds : Z;
  baths : Q;
  sqft : Z;
  image : option string;
  gallery : option (list string);
  featured : bool;
  property_type : string
}.

(** [class InquiryIn(BaseModel)]. *)
Record InquiryIn := {
  name : string;
  email : string;
  message : string;
  property_id : option string
}.

(** ** Demo data fallback *)

Definition demo_1 : ListingOut := {|
  id := Some "demo-1";
  title := "Modern Smart Home with Skyline Views";
  address := "123 Aurora Ave";
  city := "San Francisco";
  state := "CA";
  price := 1895000;
  beds := 4;
  baths := 7 # 2;
  sqft := 2560;
  image := Some "https://images.unsplash.com/photo-1507089947368-19c1da9775ae?w=1600";
  gallery := None;
  featured := true;
  property_type := "House"
|}.

Definition demo_2 : ListingOut := {|
  id := Some "demo-2";
  title := "Sleek Downtown Loft";
  address := "77 Horizon St Apt 12B";
  city := "New York";
  state := "NY";
  price := 1299000;
  beds := 2;
  baths := 2 # 1;
  sqft := 1180;
  image := Some "https://images.unsplash.com/photo-1502672260266-1c1ef2d93688?w=1600";
  gallery := None;
  featured := true;
  property_type := "Condo"
|}.

Definition demo_3 : ListingOut := {|
  id := Some "demo-3";
  title := "Sunlit Suburban Retreat";
  address := "940 Evergreen Dr";
  city := "Austin";
  state := "TX";
  price := 739000;
  beds := 3;
  baths := 2 # 1;
  sqft := 1920;
  image := Some "https://images.unsplash.com/photo-1564013799919-ab600027ffc6?w=1600";
  gallery := None;
  featured := false;
  property_type := "House"
|}.

(** The records of [DEMO_LISTINGS], in source order. *)
Definition DEMO_RECORDS : list ListingOut := [demo_1; demo_2; demo_3].

(** ** The heap of shared Python objects *)

Definition loc := positive.

(** A list object holds references; a [ListingOut] instance holds its
    fields. *)
Inductive Obj :=
| OList (items : list loc)
| OListing (l : ListingOut).

Abbreviation Heap := (gmap loc Obj).

(** Module initialisation of [main.py]: the three records are built, then
    the list that refers to them is bound to the global [DEMO_LISTINGS]. *)
Definition demo_1_loc : loc := 1%positive.
Definition demo_2_loc : loc := 2%positive.
Definition demo_3_loc : loc := 3%positive.
Definition DEMO_LISTINGS : loc := 4%positive.

Definition init_heap : Heap :=
  <[DEMO_LISTINGS := OList [demo_1_loc; demo_2_loc; demo_3_loc]]>
  (<[demo_3_loc := OListing demo_3]>
  (<[demo_2_loc := OListing demo_2]>
  (<[demo_1_loc := OListing demo_1]> ∅))).

(** ** Exceptions and the handler monad *)

Inductive Exception :=
| ImportError
| ValidationError
| StoreError
| TypeError.

Inductive Exc (A : Type) :=
| Returned (a : A)
| Raised (e : Exception).
Arguments Returned {A} a.
Arguments Raised {A} e.

(** The state threaded through a handler: the object heap and the trace of
    calls made to the store's [create_document]. *)
Record State := {
  heap : Heap;
  inserts : list (string * gmap string Value)
}.

Definition M (A : Type) : Type := State -> Exc A * State.

Definition ret {A} (a : A) : M A := fun s => (Returned a, s).
Definition raise {A} (e : Exception) : M A := fun s => (Raised e, s).
Definition bind {A B} (m : M A) (k : A -> M B) : M B :=
  fun s => match m s with
           | (Returned a, s') => k a s'
           | (Raised e, s') => (Raised e, s')
           end.

(** [try: body except Exception: handler]. Effects of [body] made before
    the exception stay. *)
Definition try_except {A} (body : M A) (handler : M A) : M A :=
  fun s => match body s with
           | (Returned a, s') => (Returned a, s')
           | (Raised _, s') => handler s'
           end.

Notation "'let*' x ':=' m 'in' k" := (bind m (fun x => k))
  (at level 10, x name, m at level 100, k at level 200).
Notation "'run' m 'then' k" := (bind m (fun _ => k))
  (at level 10, m at level 100, k at level 200).

Definition lift_exc {A} (r : Exc A) : M A := fun s => (r, s).

(** *** Heap primitives *)

Definition set_heap (h : Heap) (s : State) : State :=
  {| heap := h; inserts := inserts s |}.

(** A new object gets an address no live object has. *)
Definition alloc (o : Obj) : M loc :=
  fun s => let l := fresh (dom (heap s)) in
           (Returned l, set_heap (<[l := o]> (heap s)) s).

Definition read_list (l : loc) : M (list loc) :=
  fun s => match heap s !! l with
           | Some (OList xs) => (Returned xs, s)
           | _ => (Raised TypeError, s)
           end.

Definition read_listing (l : loc) : M ListingOut :=
  fun s => match heap s !! l with
           | Some (OListing r) => (Returned r, s)
           | _ => (Raised TypeError, s)
           end.

(** [items.append(x)]: the list object at [l] is updated in place. *)
Definition list_append (l : loc) (x : loc) : M unit :=
  fun s => match heap s !! l with
           | Some (OList xs) =>
               (Returned tt, set_heap (<[l := OList (xs ++ [x])]> (heap s)) s)
           | _ => (Raised TypeError, s)
           end.

(** The records a list object refers to, read through the heap. *)
Definition deref_listing (h : Heap) (l : loc) : option ListingOut :=
  match h !! l with
  | Some (OListing r) => Some r
  | _ => None
  end.

Definition deref_list (h : Heap) (l : loc) : option (list ListingOut) :=
  match h !! l with
  | Some (OList xs) => mapM (deref_listing h) xs
  | _ => None
  end.

(** ** The document store *)

Abbreviation Doc := (gmap string Value).

(** Modelled from the spec: the store client of the [database] module,
    which [main.py] imports and which is not part of the sources at hand.
    A query restricts to the documents that hold each queried field with
    the queried value; the cursor is sorted by creation time, newest first
    (documents without a creation date last, ties in collection order),
    and limited to a number of documents. A cursor is lazy: a failure of
    the store shows when the cursor is iterated. *)
Inductive Db :=
| Unreachable
| Serving (collections : gmap string (list Doc)).

Definition Cursor := Exc (list Doc).

(** Modelled from the spec: a document matches a query when it holds every
    queried field with the queried value. *)
Definition doc_matches (query : Doc) (doc : Doc) : bool :=
  bool_decide (map_Forall (fun k v => doc !! k = Some v) query).

(** Modelled from the spec: [db[collection].find(query)], the matching
    documents in collection order; a collection that does not exist is
    empty. *)
Definition find (d : Db) (collection : string) (query : Doc) : Cursor :=
  match d with
  | Unreachable => Raised StoreError
  | Serving collections =>
      Returned (List.filter (doc_matches query)
                            (default [] (collections !! collection)))
  end.

Definition date_of (key : string) (doc : Doc) : option Z :=
  match doc !! key with
  | Some (VDate t) => Some t
  | _ => None
  end.

(** [strictly_newer key a b]: [a] sorts strictly before [b], newest first. *)
Definition strictly_newer (key : string) (a b : Doc) : bool :=
  match date_of key a, date_of key b with
  | Some ta, Some tb => tb <? ta
  | Some _, None => true
  | None, _ => false
  end.

Fixpoint insert_desc (key : string) (x : Doc) (sorted : list Doc) : list Doc :=
  match sorted with
  | [] => [x]
  | y :: ys => if strictly_newer key y x
               then y :: insert_desc key x ys
               else x :: y :: ys
  end.

Definition sort_desc (key : string) (docs : list Doc) : list Doc :=
  foldr (insert_desc key) [] docs.



Definition cursor_map (f : list Doc -> list Doc) (c : Cursor) : Cursor :=
  match c with
  | Returned docs => Returned (f docs)
  | Raised e => Raised e
  end.

(** Modelled from the spec: [cursor.sort(key, -1)], newest first. *)
Definition cursor_sort (key : string) (c : Cursor) : Cursor :=
  cursor_map (sort_desc key) c.

(** Modelled from the spec: [cursor.limit(n)] keeps the first [n]
    documents. The spec gives [n] as positive; here 0 stands for no limit
    and a negative number for its absolute value, the way the store's
    driver reads them. *)
Definition cursor_limit (n : Z) (c : Cursor) : Cursor :=
  cursor_map (fun docs => if n =? 0 then docs
                          else take (Z.to_nat (Z.abs n)) docs) c.

(** What [main.py] imports from the [database] module: the handle [db]
    ([None] when no store is configured) and [create_document], which
    returns the new document's identifier or raises. *)
Record DatabaseModule := {
  db : option Db;
  create_document : string -> Doc -> Exc string
}.

(** [from database import ...]: [None] stands for a module that cannot be
    imported. *)
Definition import_database (database : option DatabaseModule) : M DatabaseModule :=
  match database with
  | Some m => ret m
  | None => raise ImportError
  end.

(** ** Validation of model fields *)

(** Modelled from the spec: the validation that the model classes inherit
    from [BaseModel]. A value of the declared type is taken as it is and an
    int is taken for a float field (as the number it is, which a float holds
    exactly up to 2^53 in magnitude); an optional field takes [None] or its
    absence; a field with a default takes the default in its absence; any
    other value is refused ([None] here stands for the validation error).
    Keys that are no field of the model are ignored. *)
Definition field_str (d : Doc) (k : string) : option string :=
  match d !! k with
  | Some (VStr s) => Some s
  | _ => None
  end.

Definition field_int (d : Doc) (k : string) : option Z :=
  match d !! k with
  | Some (VInt z) => Some z
  | _ => None
  end.

Definition field_float (d : Doc) (k : string) : option Q :=
  match d !! k with
  | Some (VFloat q) => Some q
  | Some (VInt z) => Some (inject_Z z)
  | _ => None
  end.

Definition field_opt_str (d : Doc) (k : string) : option (option string) :=
  match d !! k with
  | None | Some VNone => Some None
  | Some (VStr s) => Some (Some s)
  | _ => None
  end.

Definition field_opt_strlist (d : Doc) (k : string) : option (option (list string)) :=
  match d !! k with
  | None | Some VNone => Some None
  | Some (VStrList l) => Some (Some l)
  | _ => None
  end.

Definition field_bool_default (d : Doc) (k : string) (dflt : bool) : option bool :=
  match d !! k with
  | None => Some dflt
  | Some (VBool b) => Some b
  | _ => None
  end.

Definition field_str_default (d : Doc) (k : string) (dflt : string) : option string :=
  match d !! k with
  | None => Some dflt
  | Some (VStr s) => Some s
  | _ => None
  end.

(** A [ListingOut] built from the keyword arguments [doc]; no field of
    [ListingOut] carries a bound. *)
Definition ListingOut_validate (doc : Doc) : option ListingOut :=
  i ← field_opt_str doc "id";
  t ← field_str doc "title";
  a ← field_str doc "address";
  c ← field_str doc "city";
  st ← field_str doc "state";
  p ← field_int doc "price";
  b ← field_int doc "beds";
  ba ← field_float doc "baths";
  sq ← field_int doc "sqft";
  im ← field_opt_str doc "image";
  g ← field_opt_strlist doc "gallery";
  f ← field_bool_default doc "featured" false;
  pt ← field_str_default doc "property_type" "House";
  Some {| id := i; title := t; address := a; city := c; state := st;
          price := p; beds := b; baths := ba; sqft := sq; image := im;
          gallery := g; featured := f; property_type := pt |}.

(** *** [schemas.py] *)

(** [class Listing(BaseModel)] of [schemas.py]. *)
Record Listing := {
  l_title : string;
  l_address : string;
  l_city : string;
  l_state : string;
  l_price : Z;
  l_beds : Z;
  l_baths : Q;
  l_sqft : Z;
  l_image : option string;
  l_gallery : option (list string);
  l_featured : bool;
  l_property_type : string
}.

(** [Field(..., ge=0)]. *)
Definition ge0_int (z : Z) : option Z := if 0 <=? z then Some z else None.
Definition ge0_float (q : Q) : option Q := if Qle_bool 0 q then Some q else None.

Definition Listing_validate (doc : Doc) : option Listing :=
  t ← field_str doc "title";
  a ← field_str doc "address";
  c ← field_str doc "city";
  st ← field_str doc "state";
  p ← field_int doc "price" ≫= ge0_int;
  b ← field_int doc "beds" ≫= ge0_int;
  ba ← field_float doc "baths" ≫= ge0_float;
  sq ← field_int doc "sqft" ≫= ge0_int;
  im ← field_opt_str doc "image";
  g ← field_opt_strlist doc "gallery";
  f ← field_bool_default doc "featured" false;
  pt ← field_str_default doc "property_type" "House";
  Some {| l_title := t; l_address := a; l_city := c; l_state := st;
          l_price := p; l_beds := b; l_baths := ba; l_sqft := sq;
          l_image := im; l_gallery := g; l_featured := f;
          l_property_type := pt |}.

(** The data-model invariant of a listing. *)
Definition nonneg_out (r : ListingOut) : Prop :=
  0 <= price r /\ 0 <= beds r /\ (0 <= baths r)%Q /\ 0 <= sqft r.

Definition nonneg_listing (r : Listing) : Prop :=
  0 <= l_price r /\ 0 <= l_beds r /\ (0 <= l_baths r)%Q /\ 0 <= l_sqft r.

(** ** Python list and truth-value helpers *)

(** [xs[:n]] for an int [n]: a negative [n] counts from the end. *)
Definition slice_to {A} (xs : list A) (n : Z) : list A :=
  if 0 <=? n then take (Z.to_nat n) xs
  else take (length xs - Z.to_nat (- n))%nat xs.

(** *** Text

    A [string] holds the UTF-8 encoding of a Python [str]. A character is a
    byte that begins one, followed by its continuation bytes. *)

(** A continuation byte, [10xxxxxx]. *)
Definition is_continuation (c : Ascii.ascii) : bool :=
  match c with
  | Ascii.Ascii _ _ _ _ _ _ b6 b7 => b7 && negb b6
  end.

(** [len(text)]: the number of characters. *)
Fixpoint py_len (text : string) : nat :=
  match text with
  | EmptyString => 0%nat
  | String c rest =>
      if is_continuation c then py_len rest else S (py_len rest)
  end.

(** [text[:n]]: the first [n] characters, each with all its bytes. *)
Fixpoint py_take (n : nat) (text : string) : string :=
  match text with
  | EmptyString => EmptyString
  | String c rest =>
      if is_continuation c then String c (py_take n rest)
      else match n with
           | O => EmptyString
           | S n' => String c (py_take n' rest)
           end
  end.

(** [text[n:]]: what follows the first [n] characters. *)
Fixpoint py_drop (n : nat) (text : string) : string :=
  match text with
  | EmptyString => EmptyString
  | String c rest =>
      if is_continuation c then py_drop n rest
      else match n with
           | O => text
           | S n' => py_drop n' rest
           end
  end.

(** The text is empty or begins with the first byte of a character. *)
Definition starts_character (text : string) : bool :=
  match text with
  | EmptyString => true
  | String c _ => negb (is_continuation c)
  end.

(** The truth value of an [Optional[int]]: [None] and [0] are false. *)
Definition truthy (limit : option Z) : bool :=
  match limit with
  | Some n => negb (n =? 0)
  | None => false
  end.

(** ** Routes *)

(** The outcome of a request, as the client sees it. *)
Inductive HttpResponse (A : Type) :=
| Http200 (body : A)
| Http422
| Http500.
Arguments Http200 {A} body.
Arguments Http422 {A}.
Arguments Http500 {A}.

Section Routes.

(** Python's [str] on a document value, and the check behind [EmailStr]
    (the normalised address, or [None] for an address it refuses). Both
    belong to libraries the handlers call. *)
Variable py_str : Value -> string.
Variable validate_email : string -> option string.

(** *** GET /api/listings *)

(** A validated [ListingOut] instance is a new object. *)
Definition ListingOut_new (doc : Doc) : M loc :=
  match ListingOut_validate doc with
  | Some r => alloc (OListing r)
  | None => raise ValidationError
  end.

(** The body of [for doc in cursor], over the documents still to come. *)
Fixpoint for_docs (items : loc) (docs : list Doc) : M unit :=
  match docs with
  | [] => ret tt
  | doc :: rest =>
      let doc_id := py_str (default VNone (doc !! "_id")) in
      let doc := <["id" := VStr doc_id]> doc in
      let doc := delete "_id" doc in
      let* r := ListingOut_new doc in
      run list_append items r then
      for_docs items rest
  end.

(** [[d for d in data if d.featured == featured]], over the references
    still to come. *)
Fixpoint select_featured (f : bool) (refs : list loc) : M (list loc) :=
  match refs with
  | [] => ret []
  | d :: rest =>
      let* r := read_listing d in
      let* kept := select_featured f rest in
      ret (if Bool.eqb (featured r) f then d :: kept else kept)
  end.

Definition comprehension_featured (data : loc) (f : bool) : M loc :=
  let* refs := read_list data in
  let* kept := select_featured f refs in
  alloc (OList kept).

(** [data[:limit]] is a new list object. *)
Definition slice_list (data : loc) (n : Z) : M loc :=
  let* refs := read_list data in
  alloc (OList (slice_to refs n)).

(** The [try] block of [get_listings]: [Some items] when it returns,
    [None] when control falls through to the code after it. *)
Definition live_listings (database : option DatabaseModule)
    (featured : option bool) (limit : option Z) : M (option loc) :=
  let* m := import_database database in
  match db m with
  | Some d =>
      let query : Doc := ∅ in
      let query := match featured with
                   | Some f => <["featured" := VBool f]> query
                   | None => query
                   end in
      let cursor := cursor_sort "created_at" (find d "listing" query) in
      (* [if limit:] holds for an int other than 0, which is then passed on *)
      let cursor := if truthy limit
                    then cursor_limit (default 0 limit) cursor
                    else cursor in
      let* items := alloc (OList []) in
      let* docs := lift_exc cursor in
      run for_docs items docs then
      let* refs := read_list items in
      match refs with
      | [] => ret None
      | _ :: _ => ret (Some items)
      end
  | None => ret None
  end.

(** The code after the [try] block. *)
Definition demo_listings (featured : option bool) (limit : option Z) : M loc :=
  let data := DEMO_LISTINGS in
  let* data := match featured with
               | Some f => comprehension_featured data f
               | None => ret data
               end in
  let* data := match limit with
               | Some n => slice_list data n
               | None => ret data
               end in
  ret data.

Definition get_listings (database : option DatabaseModule)
    (featured : option bool) (limit : option Z) : M loc :=
  let* early := try_except (live_listings database featured limit) (ret None) in
  match early with
  | Some items => ret items
  | None => demo_listings featured limit
  end.

(** *** POST /api/inquiries *)

(** Validation of the JSON body against [InquiryIn]. *)
Definition message_ok (m : string) : bool :=
  (5 <=? py_len m)%nat && (py_len m <=? 2000)%nat.

Definition InquiryIn_validate (body : Doc) : option InquiryIn :=
  n ← field_str body "name";
  e ← field_str body "email" ≫= validate_email;
  m ← field_str body "message";
  _ ← guard (message_ok m = true);
  p ← field_opt_str body "property_id";
  Some {| name := n; email := e; message := m; property_id := p |}.

(** [payload.model_dump()]. *)
Definition model_dump (payload : InquiryIn) : Doc :=
  <["name" := VStr (name payload)]>
  (<["email" := VStr (email payload)]>
  (<["message" := VStr (message payload)]>
  (<["property_id" := match property_id payload with
                      | Some p => VStr p
                      | None => VNone
                      end]> ∅))).

(** A call of the store's [create_document]; the call is recorded whether
    it returns or raises. *)
Definition call_create_document (m : DatabaseModule)
    (collection : string) (data : Doc) : M string :=
  fun s => (create_document m collection data,
            {| heap := heap s; inserts := inserts s ++ [(collection, data)] |}).

(** The acknowledgement dict [{"status": ..., "id": ...}]. *)
Definition ack (doc_id : string) : gmap string string :=
  <["status" := "ok"]> (<["id" := doc_id]> ∅).

Definition create_inquiry (database : option DatabaseModule)
    (payload : InquiryIn) : M (gmap string string) :=
  try_except
    (let* m := import_database database in
     let* doc_id := call_create_document m "inquiry" (model_dump payload) in
     ret (ack doc_id))
    (ret (ack "demo")).

(** *** The HTTP layer *)

(** The framework serialises the returned list through the response model
    and turns an exception that escapes the handler into a server error. *)
Definition get_api_listings (database : option DatabaseModule)
    (featured : option bool) (limit : option Z) (s : State)
    : HttpResponse (list ListingOut) * State :=
  match get_listings database featured limit s with
  | (Returned l, s') =>
      match deref_list (heap s') l with
      | Some rs => (Http200 rs, s')
      | None => (Http500, s')
      end
  | (Raised _, s') => (Http500, s')
  end.

(** The body is validated before the handler is called. *)
Definition post_api_inquiries (database : option DatabaseModule)
    (body : Doc) (s : State) : HttpResponse (gmap string string) * State :=
  match InquiryIn_validate body with
  | None => (Http422, s)
  | Some payload =>
      match create_inquiry database payload s with
      | (Returned a, s') => (Http200 a, s')
      | (Raised _, s') => (Http500, s')
      end
  end.

End Routes.

(** ** What a request to GET /api/listings computes *)

Section Summary.

Variable py_str : Value -> string.

(** The keyword arguments the loop body builds from a document. *)
Definition prepare (doc : Doc) : Doc :=
  delete "_id" (<["id" := VStr (py_str (default VNone (doc !! "_id")))]> doc).

(** The query and the documents the cursor yields. *)
Definition query_of (featured : option bool) : Doc :=
  match featured with
  | Some f => <["featured" := VBool f]> ∅
  | None => ∅
  end.

Definition cursor_of (d : Db) (featured : option bool) (limit : option Z) : Cursor :=
  let cursor := cursor_sort "created_at" (find d "listing" (query_of featured)) in
  if truthy limit then cursor_limit (default 0 limit) cursor else cursor.

(** The records the [try] block collects in [items], or the exception
    that ends it. *)
Definition live_records (database : option DatabaseModule)
    (featured : option bool) (limit : option Z) : Exc (list ListingOut) :=
  match database with
  | None => Raised ImportError
  | Some m =>
      match db m with
      | None => Returned []
      | Some d =>
          match cursor_of d featured limit with
          | Raised e => Raised e
          | Returned docs =>
              match mapM (fun doc => ListingOut_validate (prepare doc)) docs with
              | Some rs => Returned rs
              | None => Raised ValidationError
              end
          end
      end
  end.

(** The filters of the fallback branch, on records. *)
Definition keep_featured (wanted : option bool) (rs : list ListingOut) : list ListingOut :=
  match wanted with
  | Some f => List.filter (fun r => Bool.eqb (featured r) f) rs
  | None => rs
  end.

Definition keep_limit {A} (limit : option Z) (rs : list A) : list A :=
  match limit with
  | Some n => slice_to rs n
  | None => rs
  end.

Definition demo_records (featured : option bool) (limit : option Z) : list ListingOut :=
  keep_limit limit (keep_featured featured DEMO_RECORDS).

(** [true] when the answer comes from the store. *)
Definition served_live (database : option DatabaseModule)
    (featured : option bool) (limit : option Z) : bool :=
  match live_records database featured limit with
  | Returned (_ :: _) => true
  | _ => false
  end.

Definition listings_answer (database : option DatabaseModule)
    (featured : option bool) (limit : option Z) : list ListingOut :=
  match live_records database featured limit with
  | Returned (r :: rs) => r :: rs
  | _ => demo_records featured limit
  end.

End Summary.

(** ** Backend conditions *)

(** The store is unavailable for a request: the module cannot be imported,
    no store is configured, the store raises, or the query yields no
    document. *)
Definition store_unavailable (database : option DatabaseModule)
    (wanted : option bool) (limit : option Z) : bool :=
  match database with
  | None => true
  | Some m =>
      match db m with
      | None => true
      | Some d =>
          match cursor_of d wanted limit with
          | Raised _ => true
          | Returned [] => true
          | Returned (_ :: _) => false
          end
      end
  end.

(** What [create_document] does for a payload: the identifier it returns,
    or [None] when the import or the insertion fails. *)
Definition insertion_outcome (database : option DatabaseModule)
    (payload : InquiryIn) : option string :=
  match database with
  | None => None
  | Some m =>
      match create_document m "inquiry" (model_dump payload) with
      | Returned doc_id => Some doc_id
      | Raised _ => None
      end
  end.

(** The documents of the listing collection. *)
Definition listing_docs (database : option DatabaseModule) : list Doc :=
  match database with
  | Some m =>
      match db m with
      | Some (Serving collections) => default [] (collections !! "listing")
      | _ => []
      end
  | None => []
  end.


(** ** Sample inputs *)

(** The state after module initialisation. *)
Definition state0 : State := {| heap := init_heap; inserts := [] |}.

(** An instance of [str]: identifiers and strings render to their text. *)
Definition sample_str (v : Value) : string :=
  match v with
  | VObjectId r => r
  | VStr s => s
  | VBool true => "True"
  | VBool false => "False"
  | _ => "None"
  end.

(** An instance of the email check: an [@] that is not the first
    character. *)
Definition sample_email (s : string) : option string :=
  match index 0 "@" s with
  | Some (S _) => Some s
  | _ => None
  end.

Definition sample_doc (oid : string) (created : Z) (flag : bool) (cost : Z) : Doc :=
  <["_id" := VObjectId oid]>
  (<["created_at" := VDate created]>
  (<["title" := VStr "Canal House"]>
  (<["address" := VStr "1 Quay Rd"]>
  (<["city" := VStr "Delft"]>
  (<["state" := VStr "ZH"]>
  (<["price" := VInt cost]>
  (<["beds" := VInt 2]>
  (<["baths" := VFloat (3 # 2)]>
  (<["sqft" := VInt 900]>
  (<["featured" := VBool flag]> ∅)))))))))).

Definition sample_docs : list Doc :=
  [sample_doc "65a0" 10 true 500000;
   sample_doc "65a1" 30 false 310000;
   sample_doc "65a2" 20 true 420000].

(** A store that serves [docs] and accepts every insertion. *)
Definition serving (docs : list Doc) : option DatabaseModule :=
  Some {| db := Some (Serving {["listing" := docs]});
          create_document := fun _ _ => Returned "65b7" |}.

(** A store whose every operation raises. *)
Definition failing : option DatabaseModule :=
  Some {| db := Some Unreachable;
          create_document := fun _ _ => Raised StoreError |}.

(** A store that hands out the identifier "demo". *)
Definition naming_demo : option DatabaseModule :=
  Some {| db := Some (Serving ∅);
          create_document := fun _ _ => Returned "demo" |}.


Definition sample_body (mail text : string) : Doc :=
  <["name" := VStr "Ada"]>
  (<["email" := VStr mail]>
  (<["message" := VStr text]> ∅)).

(** ** The other routes *)

(** [read_root] and [hello]. *)
Definition read_root : gmap string string :=
  {["message" := "Hello from FastAPI Backend!"]}.

Definition hello : gmap string string :=
  {["message" := "Hello from the backend API!"]}.

(** *** GET /test *)

(** What [test_database] sees of the [database] module: [db.name] when the
    handle has that attribute, and what [db.list_collection_names()] does,
    the names or an exception with its text. *)
Inductive Listed :=
| Names (names : list string)
| ListFails (text : string).

Record DbHandle := {
  db_name : option string;
  list_collection_names : Listed
}.

(** What [from database import db] does in [test_database]: it raises
    [ImportError], raises another exception with its text, or binds [db]
    ([None] when no store is configured). *)
Inductive DbImport :=
| ImportMissing
| ImportFails (text : string)
| Imported (handle : option DbHandle).

(** The truth value of [os.getenv(name)]: unset and empty are false. *)
Definition env_truthy (v : option string) : bool :=
  match v with
  | Some s => negb (String.eqb s "")
  | None => false
  end.

Definition set_or_not (v : option string) : Value :=
  if env_truthy v then VStr "✅ Set" else VStr "❌ Not Set".

(** [text[:50]]. *)
Definition first_50 (text : string) : string := py_take 50 text.

Definition test_database (import : DbImport) (getenv : string -> option string)
    : gmap string Value :=
  let response : gmap string Value :=
    <["backend" := VStr "✅ Running"]>
    (<["database" := VStr "❌ Not Available"]>
    (<["database_url" := VNone]>
    (<["database_name" := VNone]>
    (<["connection_status" := VStr "Not Connected"]>
    (<["collections" := VStrList []]> ∅))))) in
  let response :=
    match import with
    | Imported (Some handle) =>
        let response := <["database" := VStr "✅ Available"]> response in
        let response :=
          <["database_url" := set_or_not (getenv "DATABASE_URL")]> response in
        let response :=
          <["database_name" := match db_name handle with
                               | Some n => VStr n
                               | None => VStr "✅ Connected"
                               end]> response in
        let response := <["connection_status" := VStr "Connected"]> response in
        match list_collection_names handle with
        | Names collections =>
            let response :=
              <["collections" := VStrList (take 10 collections)]> response in
            <["database" := VStr "✅ Connected & Working"]> response
        | ListFails e =>
            <["database" :=
                VStr ("⚠️  Connected but Error: " +:+ first_50 e)]> response
        end
    | Imported None =>
        <["database" := VStr "⚠️  Available but not initialized"]> response
    | ImportMissing =>
        <["database" :=
            VStr "❌ Database module not found (run enable-database first)"]>
          response
    | ImportFails e =>
        <["database" := VStr ("❌ Error: " +:+ first_50 e)]> response
    end in
  (* Check environment variables explicitly *)
  let response :=
    <["database_url" := set_or_not (getenv "DATABASE_URL")]> response in
  let response :=
    <["database_name" := set_or_not (getenv "DATABASE_NAME")]> response in
  response.

(** *** The application *)

(** A request to one of the five routes. *)
Inductive Request :=
| GET_root
| GET_hello
| GET_test
| GET_listings (wanted : option bool) (limit : option Z)
| POST_inquiries (body : Doc).

(** What surrounds the application while one request is served: the
    [database] module as the handlers import it, as [test_database] sees
    it, and the environment variables. *)
Record Backend := {
  b_database : option DatabaseModule;
  b_import : DbImport;
  b_getenv : string -> option string
}.

Inductive Answer :=
| Message (body : gmap string string)
| Diagnostics (body : gmap string Value)
| Listings (response : HttpResponse (list ListingOut))
| Acknowledged (response : HttpResponse (gmap string string)).

Section Application.

Variable py_str : Value -> string.
Variable validate_email : string -> option string.

Definition handle (b : Backend) (r : Request) (s : State) : Answer * State :=
  match r with
  | GET_root => (Message read_root, s)
  | GET_hello => (Message hello, s)
  | GET_test => (Diagnostics (test_database (b_import b) (b_getenv b)), s)
  | GET_listings wanted limit =>
      let (a, s') := get_api_listings py_str (b_database b) wanted limit s in
      (Listings a, s')
  | POST_inquiries body =>
      let (a, s') := post_api_inquiries validate_email (b_database b) body s in
      (Acknowledged a, s')
  end.

(** The requests are served one after the other, each in the backend of
    its moment. *)
Fixpoint serve (rs : list (Backend * Request)) (s : State) : list Answer * State :=
  match rs with
  | [] => ([], s)
  | (b, r) :: rest =>
      let (a, s1) := handle b r s in
      let (answers, s2) := serve rest s1 in
      (a :: answers, s2)
  end.

End Application.

(** An answer other than a server error. *)
Definition no_server_error (a : Answer) : Prop :=
  match a with
  | Listings Http500 | Acknowledged Http500 => False
  | _ => True
  end.

(** The requests that reach [create_inquiry]: POSTs whose body validates. *)
Definition reaches_store (validate_email : string -> option string)
    (br : Backend * Request) : bool :=
  match br with
  | (b, POST_inquiries body) =>
      match InquiryIn_validate validate_email body, b_database b with
      | Some _, Some _ => true
      | _, _ => false
      end
  | _ => false
  end.

(** ** More of [schemas.py] *)

Definition field_opt_int (d : Doc) (k : string) : option (option Z) :=
  match d !! k with
  | None | Some VNone => Some None
  | Some (VInt z) => Some (Some z)
  | _ => None
  end.

(** [class User(BaseModel)]. *)
Record User := {
  u_name : string;
  u_email : string;
  u_address : string;
  u_age : option Z;
  u_is_active : bool
}.

(** [Field(None, ge=0, le=120)]: the bounds hold for an age that is given. *)
Definition age_ok (a : option Z) : option (option Z) :=
  match a with
  | None => Some None
  | Some z => if (0 <=? z) && (z <=? 120) then Some (Some z) else None
  end.

Definition User_validate (doc : Doc) : option User :=
  n ← field_str doc "name";
  e ← field_str doc "email";
  a ← field_str doc "address";
  g ← field_opt_int doc "age" ≫= age_ok;
  act ← field_bool_default doc "is_active" true;
  Some {| u_name := n; u_email := e; u_address := a; u_age := g;
          u_is_active := act |}.

(** [class Product(BaseModel)]. *)
Record Product := {
  p_title : string;
  p_description : option string;
  p_price : Q;
  p_category : string;
  p_in_stock : bool
}.

Definition Product_validate (doc : Doc) : option Product :=
  t ← field_str doc "title";
  d ← field_opt_str doc "description";
  p ← field_float doc "price" ≫= ge0_float;
  c ← field_str doc "category";
  st ← field_bool_default doc "in_stock" true;
  Some {| p_title := t; p_description := d; p_price := p; p_category := c;
          p_in_stock := st |}.

(** [class Inquiry(BaseModel)] of [schemas.py]. *)
Record Inquiry := {
  i_name : string;
  i_email : string;
  i_message : string;
  i_property_id : option string
}.

Definition Inquiry_validate (validate_email : string -> option string)
    (doc : Doc) : option Inquiry :=
  n ← field_str doc "name";
  e ← field_str doc "email" ≫= validate_email;
  m ← field_str doc "message";
  _ ← guard (message_ok m = true);
  p ← field_opt_str doc "property_id";
  Some {| i_name := n; i_email := e; i_message := m; i_property_id := p |}.

(** The [InquiryIn] that holds the fields of an [Inquiry]. *)
Definition as_InquiryIn (i : Inquiry) : InquiryIn :=
  {| name := i_name i; email := i_email i; message := i_message i;
     property_id := i_property_id i |}.

(** The [ListingOut] that holds the fields of a [Listing] under an
    identifier. *)
Definition as_ListingOut (doc_id : string) (l : Listing) : ListingOut :=
  {| id := Some doc_id; title := l_title l; address := l_address l;
     city := l_city l; state := l_state l; price := l_price l;
     beds := l_beds l; baths := l_baths l; sqft := l_sqft l;
     image := l_image l; gallery := l_gallery l; featured := l_featured l;
     property_type := l_property_type l |}.

(** The module behind [serving docs]. *)
Definition sample_module (docs : list Doc) : DatabaseModule :=
  {| db := Some (Serving {["listing" := docs]});
     create_document := fun _ _ => Returned "65b7" |}.

(** A document without a title. *)
Definition untitled_doc : Doc := delete "title" (sample_doc "65a3" 40 true 250000).

(** A backend for the examples. *)
Definition sample_backend : Backend :=
  {| b_database := serving sample_docs;
     b_import := Imported (Some {| db_name := Some "estate";
                                   list_collection_names := Names ["listing"; "inquiry"] |});
     b_getenv := fun k => if String.eqb k "DATABASE_URL"
                          then Some "mongodb://localhost" else None |}.

(** * Properties *)

(** ** The heap *)

(** Every object of [h] but the one at [l] is the same in [h']. *)
Definition frame_except (l : loc) (h h' : Heap) : Prop :=
  forall k o, k <> l -> h !! k = Some o -> h' !! k = Some o.

Lemma frame_except_refl l (h : Heap) : frame_except l h h.
Proof. intros k o _ H. exact H. Qed.

Lemma frame_except_trans l (h1 h2 h3 : Heap) :
  frame_except l h1 h2 -> frame_except l h2 h3 -> frame_except l h1 h3.
Proof. intros H12 H23 k o Hk H. apply H23, H12; assumption. Qed.

Lemma subseteq_frame_except l (h h' : Heap) : h ⊆ h' -> frame_except l h h'.
Proof. intros Hsub k o _ H. eapply lookup_weaken; eassumption. Qed.

Lemma fresh_heap_None (h : Heap) : h !! fresh (dom h) = None.
Proof. apply not_elem_of_dom, is_fresh. Qed.

Lemma alloc_spec (o : Obj) (s : State) :
  exists l s', alloc o s = (Returned l, s')
    /\ heap s !! l = None
    /\ heap s' = <[l := o]> (heap s)
    /\ inserts s' = inserts s.
Proof.
  eexists _, _. split; [reflexivity|]. cbn.
  split; [apply fresh_heap_None|]. split; reflexivity.
Qed.

Lemma deref_listing_weaken (h h' : Heap) l r :
  h ⊆ h' -> deref_listing h l = Some r -> deref_listing h' l = Some r.
Proof.
  unfold deref_listing. intros Hsub H.
  destruct (h !! l) as [o|] eqn:E; [|discriminate].
  rewrite (lookup_weaken _ _ _ _ E Hsub). exact H.
Qed.

Lemma mapM_deref_weaken (h h' : Heap) ls rs :
  h ⊆ h' -> mapM (deref_listing h) ls = Some rs ->
  mapM (deref_listing h') ls = Some rs.
Proof.
  intros Hsub H. apply mapM_Some in H. apply mapM_Some.
  eapply Forall2_impl; [exact H|].
  intros l r Hl. eapply deref_listing_weaken; eassumption.
Qed.

(** ** The loops of [get_listings] *)

Section Loops.

Variable py_str : Value -> string.

Ltac run_step := unfold bind, ret, raise, lift_exc; cbn.

Lemma list_append_spec (items x : loc) (s : State) xs :
  heap s !! items = Some (OList xs) ->
  list_append items x s =
    (Returned tt, set_heap (<[items := OList (xs ++ [x])]> (heap s)) s).
Proof. intros H. unfold list_append. rewrite H. reflexivity. Qed.

(** The loop appends one new record per document, in order, and leaves
    every other object alone; it stops at the first document that does not
    validate. *)
Lemma for_docs_spec (docs : list Doc) :
  forall (items : loc) (s : State) (xs : list loc),
  heap s !! items = Some (OList xs) ->
  match mapM (fun doc => ListingOut_validate (prepare py_str doc)) docs with
  | Some rs =>
      exists s' new,
        for_docs py_str items docs s = (Returned tt, s')
        /\ heap s' !! items = Some (OList (xs ++ new))
        /\ mapM (deref_listing (heap s')) new = Some rs
        /\ frame_except items (heap s) (heap s')
        /\ inserts s' = inserts s
  | None =>
      exists s',
        for_docs py_str items docs s = (Raised ValidationError, s')
        /\ frame_except items (heap s) (heap s')
        /\ inserts s' = inserts s
  end.
Proof.
  induction docs as [|doc rest IH]; intros items s xs Hitems.
  - cbn. exists s, []. rewrite app_nil_r.
    repeat split; auto using frame_except_refl.
  - cbn [mapM for_docs]. fold (prepare py_str doc).
    unfold ListingOut_new.
    destruct (ListingOut_validate (prepare py_str doc)) as [r|] eqn:Hval; cbn.
    + set (l := fresh (dom (heap s))).
      assert (Hl : heap s !! l = None) by apply fresh_heap_None.
      assert (Hne : l <> items) by (intros ->; congruence).
      set (s1 := set_heap (<[l := OListing r]> (heap s)) s).
      assert (H1 : heap s1 !! items = Some (OList xs)).
      { cbn. rewrite lookup_insert_ne by exact Hne. exact Hitems. }
      unfold bind at 1. unfold alloc. fold l. fold s1.
      unfold bind at 1. rewrite (list_append_spec _ _ _ _ H1).
      set (s2 := set_heap (<[items := OList (xs ++ [l])]> (heap s1)) s1).
      assert (H2 : heap s2 !! items = Some (OList (xs ++ [l])))
        by (cbn; apply lookup_insert_eq).
      assert (Hfr : frame_except items (heap s) (heap s2)).
      { intros k o Hk Hko. cbn. rewrite lookup_insert_ne by congruence.
        rewrite lookup_insert_ne by congruence. exact Hko. }
      assert (Hr : heap s2 !! l = Some (OListing r)).
      { cbn. rewrite lookup_insert_ne by congruence. apply lookup_insert_eq. }
      specialize (IH items s2 (xs ++ [l])%list H2).
      destruct (mapM _ rest) as [rs|]; cbn.
      * destruct IH as (s' & new & Hrun & Hit & Hder & Hfr' & Hins).
        exists s', (l :: new). rewrite Hrun.
        split; [reflexivity|]. split; [rewrite Hit, <- app_assoc; reflexivity|].
        split.
        { apply mapM_Some. constructor; [|apply mapM_Some; exact Hder].
          unfold deref_listing. rewrite (Hfr' l _ Hne Hr). reflexivity. }
        split; [eapply frame_except_trans; eassumption|].
        rewrite Hins. reflexivity.
      * destruct IH as (s' & Hrun & Hfr' & Hins).
        exists s'. rewrite Hrun. split; [reflexivity|].
        split; [eapply frame_except_trans; eassumption|].
        rewrite Hins. reflexivity.
    + exists s. run_step. repeat split; auto using frame_except_refl.
Qed.

(** The comprehension reads the records and changes nothing. *)
Lemma select_featured_spec (f : bool) (refs : list loc) :
  forall (s : State) (rs : list ListingOut),
  mapM (deref_listing (heap s)) refs = Some rs ->
  exists kept,
    select_featured f refs s = (Returned kept, s)
    /\ mapM (deref_listing (heap s)) kept = Some (keep_featured (Some f) rs)
    /\ kept ⊆ refs.
Proof.
  induction refs as [|d rest IH]; intros s rs H.
  - cbn in H. injection H as <-. exists []. cbn. repeat split. done.
  - cbn in H. destruct (deref_listing (heap s) d) as [r|] eqn:Hd; [|discriminate].
    cbn in H. destruct (mapM _ rest) as [rs'|] eqn:Hrest; [|discriminate].
    cbn in H. injection H as <-.
    destruct (IH s rs' Hrest) as (kept & Hrun & Hder & Hsub).
    cbn [select_featured]. unfold bind at 1. unfold read_listing.
    unfold deref_listing in Hd.
    destruct (heap s !! d) as [[|r0]|] eqn:Hh; try discriminate.
    injection Hd as ->.
    unfold bind at 1. rewrite Hrun. unfold ret. cbn [keep_featured List.filter].
    destruct (Bool.eqb (featured r) f).
    + exists (d :: kept). split; [reflexivity|]. split.
      * apply mapM_Some. constructor; [|apply mapM_Some; exact Hder].
        unfold deref_listing. rewrite Hh. reflexivity.
      * set_solver.
    + exists kept. split; [reflexivity|]. split; [exact Hder|]. set_solver.
Qed.

End Loops.

(** ** The fallback branch *)

Lemma deref_list_unfold (h : Heap) l refs :
  h !! l = Some (OList refs) -> deref_list h l = mapM (deref_listing h) refs.
Proof. intros H. unfold deref_list. rewrite H. reflexivity. Qed.

Lemma deref_list_inv (h : Heap) l rs :
  deref_list h l = Some rs ->
  exists refs, h !! l = Some (OList refs) /\ mapM (deref_listing h) refs = Some rs.
Proof.
  unfold deref_list. destruct (h !! l) as [[refs|]|]; try discriminate.
  intros H. exists refs. split; [reflexivity|exact H].
Qed.

Lemma deref_list_weaken (h h' : Heap) l rs :
  h ⊆ h' -> deref_list h l = Some rs -> deref_list h' l = Some rs.
Proof.
  intros Hsub H. destruct (deref_list_inv _ _ _ H) as (refs & Hl & Hm).
  rewrite (deref_list_unfold h' l refs) by (eapply lookup_weaken; eassumption).
  eapply mapM_deref_weaken; eassumption.
Qed.

(** A new list object over known records reads back as those records. *)
Lemma alloc_list_spec (refs : list loc) (rs : list ListingOut) (s : State) :
  mapM (deref_listing (heap s)) refs = Some rs ->
  exists l s', alloc (OList refs) s = (Returned l, s')
    /\ deref_list (heap s') l = Some rs
    /\ heap s ⊆ heap s'
    /\ inserts s' = inserts s
    /\ heap s !! l = None.
Proof.
  intros H. destruct (alloc_spec (OList refs) s) as (l & s' & Hrun & Hnew & Hh & Hi).
  exists l, s'. split; [exact Hrun|].
  assert (Hsub : heap s ⊆ heap s') by (rewrite Hh; apply insert_subseteq, Hnew).
  split; [|repeat split; assumption].
  rewrite (deref_list_unfold _ l refs) by (rewrite Hh; apply lookup_insert_eq).
  eapply mapM_deref_weaken; eassumption.
Qed.

Lemma slice_to_Forall2 {A B} (P : A -> B -> Prop) xs ys n :
  Forall2 P xs ys -> Forall2 P (slice_to xs n) (slice_to ys n).
Proof.
  intros H. unfold slice_to. rewrite (Forall2_length _ _ _ H).
  destruct (0 <=? n); apply Forall2_take, H.
Qed.

Lemma init_heap_demo (h : Heap) :
  init_heap ⊆ h -> deref_list h DEMO_LISTINGS = Some DEMO_RECORDS.
Proof.
  intros Hsub. eapply deref_list_weaken; [exact Hsub|]. reflexivity.
Qed.

Lemma comprehension_featured_spec (data : loc) (f : bool) (s : State) rs :
  deref_list (heap s) data = Some rs ->
  exists l s', comprehension_featured data f s = (Returned l, s')
    /\ deref_list (heap s') l = Some (keep_featured (Some f) rs)
    /\ heap s ⊆ heap s'
    /\ inserts s' = inserts s
    /\ heap s !! l = None.
Proof.
  intros H. destruct (deref_list_inv _ _ _ H) as (refs & Hl & Hm).
  destruct (select_featured_spec f refs s rs Hm) as (kept & Hrun & Hder & _).
  destruct (alloc_list_spec kept _ s Hder) as (l & s' & Ha & Hd & Hsub & Hi & Hnew).
  exists l, s'. split; [|auto].
  unfold comprehension_featured, bind, read_list. rewrite Hl, Hrun. exact Ha.
Qed.

Lemma slice_list_spec (data : loc) (n : Z) (s : State) rs :
  deref_list (heap s) data = Some rs ->
  exists l s', slice_list data n s = (Returned l, s')
    /\ deref_list (heap s') l = Some (slice_to rs n)
    /\ heap s ⊆ heap s'
    /\ inserts s' = inserts s
    /\ heap s !! l = None.
Proof.
  intros H. destruct (deref_list_inv _ _ _ H) as (refs & Hl & Hm).
  assert (Hs : mapM (deref_listing (heap s)) (slice_to refs n) = Some (slice_to rs n)).
  { apply mapM_Some, slice_to_Forall2, mapM_Some, Hm. }
  destruct (alloc_list_spec _ _ s Hs) as (l & s' & Ha & Hd & Hsub & Hi & Hnew).
  exists l, s'. split; [|auto].
  unfold slice_list, bind, read_list. rewrite Hl. exact Ha.
Qed.

(** The fallback branch returns the filtered demo records in a heap that
    only grew; the list it returns is [DEMO_LISTINGS] itself when no filter
    is given, and a new object otherwise. *)
Lemma demo_listings_spec (wanted : option bool) (limit : option Z) (s : State) :
  init_heap ⊆ heap s ->
  exists l s', demo_listings wanted limit s = (Returned l, s')
    /\ deref_list (heap s') l = Some (demo_records wanted limit)
    /\ heap s ⊆ heap s'
    /\ inserts s' = inserts s
    /\ ((wanted = None /\ limit = None /\ l = DEMO_LISTINGS)
        \/ heap s !! l = None).
Proof.
  intros Hinit. pose proof (init_heap_demo _ Hinit) as Hdemo.
  unfold demo_listings, demo_records.
  assert (H1 : exists l1 s1,
    (match wanted with
     | Some f => comprehension_featured DEMO_LISTINGS f
     | None => ret DEMO_LISTINGS
     end) s = (Returned l1, s1)
    /\ deref_list (heap s1) l1 = Some (keep_featured wanted DEMO_RECORDS)
    /\ heap s ⊆ heap s1 /\ inserts s1 = inserts s
    /\ ((wanted = None /\ l1 = DEMO_LISTINGS) \/ heap s !! l1 = None)).
  { destruct wanted as [f|].
    - destruct (comprehension_featured_spec DEMO_LISTINGS f s _ Hdemo)
        as (l1 & s1 & Hr & Hd & Hsub & Hi & Hnew).
      exists l1, s1. repeat split; auto.
    - exists DEMO_LISTINGS, s. repeat split; auto. }
  destruct H1 as (l1 & s1 & Hrun1 & Hd1 & Hsub1 & Hi1 & Hl1).
  unfold bind at 1. rewrite Hrun1.
  destruct limit as [n|].
  - destruct (slice_list_spec l1 n s1 _ Hd1)
      as (l2 & s2 & Hrun2 & Hd2 & Hsub2 & Hi2 & Hnew2).
    exists l2, s2. unfold bind, ret. rewrite Hrun2.
    split; [reflexivity|]. split; [exact Hd2|].
    split; [etrans; eassumption|]. split; [congruence|].
    right. eapply lookup_weaken_None; eassumption.
  - exists l1, s1. unfold bind, ret.
    split; [reflexivity|]. split; [exact Hd1|]. split; [exact Hsub1|].
    split; [exact Hi1|].
    destruct Hl1 as [[-> ->]|Hnew]; [left|right]; auto.
Qed.

(** ** The handler as a whole *)

Section Handler.

Variable py_str : Value -> string.

(** The [try] block computes [live_records] and touches no object that
    was there before. *)
Lemma live_listings_spec database (wanted : option bool) (limit : option Z) (s : State) :
  exists out s',
    live_listings py_str database wanted limit s = (out, s')
    /\ heap s ⊆ heap s' /\ inserts s' = inserts s /\
    match live_records py_str database wanted limit with
    | Returned (r :: rs) =>
        exists l, out = Returned (Some l)
                  /\ deref_list (heap s') l = Some (r :: rs)
                  /\ heap s !! l = None
    | Returned [] => out = Returned None
    | Raised e => out = Raised e
    end.
Proof.
  unfold live_listings, live_records.
  destruct database as [m|]; [|eexists _, s; cbn; eauto].
  destruct m as [[d|] cd]; cbn [db import_database];
    unfold bind at 1; unfold ret at 1; cbv beta iota; cbn [db];
    [|eexists _, s; cbn; eauto].
  change (if truthy limit
          then cursor_limit (default 0 limit)
                 (cursor_sort "created_at"
                    (find d "listing"
                       match wanted with
                       | Some f => <["featured" := VBool f]> ∅
                       | None => ∅
                       end))
          else cursor_sort "created_at"
                 (find d "listing"
                    match wanted with
                    | Some f => <["featured" := VBool f]> ∅
                    | None => ∅
                    end))
    with (cursor_of d wanted limit).
  destruct (alloc_spec (OList []) s) as (items & s1 & Hrun & Hnew & Hh & Hi).
  assert (Hsub1 : heap s ⊆ heap s1) by (rewrite Hh; apply insert_subseteq, Hnew).
  assert (Hit : heap s1 !! items = Some (OList [])) by (rewrite Hh; apply lookup_insert_eq).
  unfold bind at 1. rewrite Hrun.
  destruct (cursor_of d wanted limit) as [docs|e]; unfold bind at 1, lift_exc;
    [|eexists _, s1; eauto].
  pose proof (for_docs_spec py_str docs items s1 [] Hit) as Hloop.
  assert (Hgrow : forall s', frame_except items (heap s1) (heap s') -> heap s ⊆ heap s').
  { intros s' Hfr. apply map_subseteq_spec. intros k o Hk.
    apply Hfr; [intros ->; congruence|]. eapply lookup_weaken; eassumption. }
  destruct (mapM _ docs) as [rs|].
  - destruct Hloop as (s' & new & Hfor & Hitems & Hder & Hfr & Hins).
    unfold bind at 1. rewrite Hfor. unfold bind, read_list. rewrite Hitems.
    cbn [app].
    assert (Hlen : length new = length rs)
      by (apply mapM_Some in Hder; eapply Forall2_length; exact Hder).
    destruct rs as [|r rs]; destruct new as [|n new]; try discriminate;
      eexists _, s'; (split; [reflexivity|]); (split; [auto|]);
      (split; [congruence|]).
    + reflexivity.
    + exists items. split; [reflexivity|]. split; [|exact Hnew].
      rewrite (deref_list_unfold _ _ _ Hitems). exact Hder.
  - destruct Hloop as (s' & Hfor & Hfr & Hins).
    unfold bind at 1. rewrite Hfor.
    eexists _, s'. split; [reflexivity|]. split; [auto|]. split; [congruence|].
    reflexivity.
Qed.

(** [get_listings] returns a list object that reads back as
    [listings_answer]; every object that existed before is unchanged, the
    store's [create_document] is not called, and the list returned is a new
    object unless it is [DEMO_LISTINGS] itself, returned unfiltered. *)
Lemma get_listings_spec database (wanted : option bool) (limit : option Z) (s : State) :
  init_heap ⊆ heap s ->
  exists l s',
    get_listings py_str database wanted limit s = (Returned l, s')
    /\ deref_list (heap s') l = Some (listings_answer py_str database wanted limit)
    /\ heap s ⊆ heap s'
    /\ inserts s' = inserts s
    /\ ((wanted = None /\ limit = None /\ l = DEMO_LISTINGS)
        \/ heap s !! l = None).
Proof.
  intros Hinit.
  destruct (live_listings_spec database wanted limit s)
    as (out & s1 & Hout & Hsub1 & Hi1 & Hlive).
  assert (Hinit1 : init_heap ⊆ heap s1) by (etrans; eassumption).
  destruct (demo_listings_spec wanted limit s1 Hinit1)
    as (l2 & s2 & Hrun2 & Hd2 & Hsub2 & Hi2 & Hl2).
  assert (Hl2' : (wanted = None /\ limit = None /\ l2 = DEMO_LISTINGS)
                 \/ heap s !! l2 = None).
  { destruct Hl2 as [?|Hnew]; [left; assumption|right].
    eapply lookup_weaken_None; eassumption. }
  assert (Hfall : match out with Returned (Some _) => False | _ => True end ->
    get_listings py_str database wanted limit s = (Returned l2, s2)).
  { intros Hnone. unfold get_listings, bind, try_except. rewrite Hout.
    destruct out as [[l|]|e]; [contradiction| |]; unfold ret; exact Hrun2. }
  unfold listings_answer.
  destruct (live_records py_str database wanted limit) as [[|r rs]|e].
  - subst out. exists l2, s2. split; [apply Hfall; exact I|].
    split; [exact Hd2|]. split; [etrans; eassumption|].
    split; [congruence|exact Hl2'].
  - destruct Hlive as (l & -> & Hder & Hnew).
    exists l, s1. split; [|auto].
    unfold get_listings, bind, try_except. rewrite Hout. reflexivity.
  - subst out. exists l2, s2. split; [apply Hfall; exact I|].
    split; [exact Hd2|]. split; [etrans; eassumption|].
    split; [congruence|exact Hl2'].
Qed.

(** The endpoint answers 200 with [listings_answer]. *)
Lemma get_api_listings_spec database (wanted : option bool) (limit : option Z) (s : State) :
  init_heap ⊆ heap s ->
  exists s',
    get_api_listings py_str database wanted limit s
      = (Http200 (listings_answer py_str database wanted limit), s')
    /\ heap s ⊆ heap s'
    /\ inserts s' = inserts s.
Proof.
  intros Hinit.
  destruct (get_listings_spec database wanted limit s Hinit)
    as (l & s' & Hrun & Hder & Hsub & Hi & _).
  exists s'. unfold get_api_listings. rewrite Hrun, Hder. auto.
Qed.

End Handler.

(** ** Validation and the store, on values *)

Lemma ListingOut_validate_inv (doc : Doc) (r : ListingOut) :
  ListingOut_validate doc = Some r ->
  field_int doc "price" = Some (price r)
  /\ field_int doc "beds" = Some (beds r)
  /\ field_float doc "baths" = Some (baths r)
  /\ field_int doc "sqft" = Some (sqft r)
  /\ field_bool_default doc "featured" false = Some (featured r)
  /\ field_opt_str doc "id" = Some (id r).
Proof.
  unfold ListingOut_validate. intros H.
  destruct (field_opt_str doc "id"); [|discriminate].
  destruct (field_str doc "title"); [|discriminate].
  destruct (field_str doc "address"); [|discriminate].
  destruct (field_str doc "city"); [|discriminate].
  destruct (field_str doc "state"); [|discriminate].
  destruct (field_int doc "price"); [|discriminate].
  destruct (field_int doc "beds"); [|discriminate].
  destruct (field_float doc "baths"); [|discriminate].
  destruct (field_int doc "sqft"); [|discriminate].
  destruct (field_opt_str doc "image"); [|discriminate].
  destruct (field_opt_strlist doc "gallery"); [|discriminate].
  destruct (field_bool_default doc "featured" false); [|discriminate].
  destruct (field_str_default doc "property_type" "House"); [|discriminate].
  cbn in H. injection H as <-. cbn. repeat split.
Qed.

Lemma Listing_validate_inv (doc : Doc) (r : Listing) :
  Listing_validate doc = Some r ->
  field_int doc "price" = Some (l_price r) /\ 0 <= l_price r
  /\ field_int doc "beds" = Some (l_beds r) /\ 0 <= l_beds r
  /\ field_float doc "baths" = Some (l_baths r) /\ (0 <= l_baths r)%Q
  /\ field_int doc "sqft" = Some (l_sqft r) /\ 0 <= l_sqft r.
Proof.
  unfold Listing_validate, ge0_int, ge0_float. intros H.
  destruct (field_str doc "title"); [|discriminate].
  destruct (field_str doc "address"); [|discriminate].
  destruct (field_str doc "city"); [|discriminate].
  destruct (field_str doc "state"); [|discriminate].
  destruct (field_int doc "price") as [p|]; [|discriminate].
  destruct (field_int doc "beds") as [b|]; cbn in H;
    destruct (0 <=? p) eqn:Hp; try discriminate.
  destruct (field_float doc "baths") as [ba|]; cbn in H;
    destruct (0 <=? b) eqn:Hb; try discriminate.
  destruct (field_int doc "sqft") as [sq|]; cbn in H;
    destruct (Qle_bool 0 ba) eqn:Hba; try discriminate.
  cbn in H. destruct (0 <=? sq) eqn:Hsq; try discriminate.
  destruct (field_opt_str doc "image"); [|discriminate].
  destruct (field_opt_strlist doc "gallery"); [|discriminate].
  destruct (field_bool_default doc "featured" false); [|discriminate].
  destruct (field_str_default doc "property_type" "House"); [|discriminate].
  cbn in H. injection H as <-. cbn.
  apply Z.leb_le in Hp, Hb, Hsq. apply Qle_bool_iff in Hba.
  repeat split; assumption.
Qed.

Section Values.

Variable py_str : Value -> string.

(** The loop body rewrites the identifier keys only. *)
Lemma prepare_lookup (doc : Doc) (k : string) :
  k <> "id" -> k <> "_id" -> prepare py_str doc !! k = doc !! k.
Proof.
  intros H1 H2. unfold prepare.
  rewrite lookup_delete_ne by congruence.
  rewrite lookup_insert_ne by congruence. reflexivity.
Qed.

Lemma prepare_id (doc : Doc) :
  prepare py_str doc !! "id" = Some (VStr (py_str (default VNone (doc !! "_id")))).
Proof.
  unfold prepare. rewrite lookup_delete_ne by discriminate.
  apply lookup_insert_eq.
Qed.

Lemma prepare_field_int doc k :
  k <> "id" -> k <> "_id" -> field_int (prepare py_str doc) k = field_int doc k.
Proof. intros. unfold field_int. rewrite prepare_lookup by assumption. reflexivity. Qed.

Lemma prepare_field_float doc k :
  k <> "id" -> k <> "_id" -> field_float (prepare py_str doc) k = field_float doc k.
Proof. intros. unfold field_float. rewrite prepare_lookup by assumption. reflexivity. Qed.

Lemma prepare_field_bool doc k dflt :
  k <> "id" -> k <> "_id" ->
  field_bool_default (prepare py_str doc) k dflt = field_bool_default doc k dflt.
Proof.
  intros. unfold field_bool_default. rewrite prepare_lookup by assumption.
  reflexivity.
Qed.

(** A document that holds the flag validates to a record with that flag. *)
Lemma validated_featured (doc : Doc) (r : ListingOut) (f : bool) :
  ListingOut_validate (prepare py_str doc) = Some r ->
  doc !! "featured" = Some (VBool f) ->
  featured r = f.
Proof.
  intros Hv Hf. apply ListingOut_validate_inv in Hv.
  destruct Hv as (_ & _ & _ & _ & Hb & _).
  rewrite prepare_field_bool in Hb by discriminate.
  unfold field_bool_default in Hb. rewrite Hf in Hb. congruence.
Qed.

End Values.

Lemma doc_matches_featured (f : bool) (doc : Doc) :
  doc_matches (query_of (Some f)) doc = true <-> doc !! "featured" = Some (VBool f).
Proof.
  unfold doc_matches, query_of. rewrite bool_decide_eq_true.
  rewrite map_Forall_insert by apply lookup_empty.
  split; [intros [H _]; exact H|].
  intros H. split; [exact H|apply map_Forall_empty].
Qed.


Lemma Forall_insert_desc (P : Doc -> Prop) key x l :
  P x -> Forall P l -> Forall P (insert_desc key x l).
Proof.
  intros Hx Hl. induction Hl as [|y ys Hy Hys IH]; cbn.
  - constructor; [exact Hx|constructor].
  - destruct (strictly_newer key y x); repeat constructor; assumption.
Qed.

Lemma Forall_sort_desc (P : Doc -> Prop) key l :
  Forall P l -> Forall P (sort_desc key l).
Proof.
  intros Hl. induction Hl as [|y ys Hy Hys IH]; cbn.
  - constructor.
  - apply Forall_insert_desc; assumption.
Qed.

Lemma mapM_length {A B} (f : A -> option B) l k :
  mapM f l = Some k -> length k = length l.
Proof. intros H. apply mapM_Some in H. symmetry. eapply Forall2_length, H. Qed.

(** ** The cursor *)

Lemma cursor_of_Serving collections wanted limit :
  cursor_of (Serving collections) wanted limit =
  Returned
    ((if truthy limit
      then fun docs => if default 0 limit =? 0 then docs
                       else take (Z.to_nat (Z.abs (default 0 limit))) docs
      else fun docs => docs)
       (sort_desc "created_at"
          (List.filter (doc_matches (query_of wanted))
                       (default [] (collections !! "listing"))))).
Proof. unfold cursor_of. destruct (truthy limit); reflexivity. Qed.

Lemma cursor_of_Unreachable wanted limit :
  cursor_of Unreachable wanted limit = Raised StoreError.
Proof. unfold cursor_of. destruct (truthy limit); reflexivity. Qed.

Lemma cursor_featured d (f : bool) limit docs :
  cursor_of d (Some f) limit = Returned docs ->
  Forall (fun doc : Doc => doc !! "featured" = Some (VBool f)) docs.
Proof.
  destruct d as [|c]; [rewrite cursor_of_Unreachable; discriminate|].
  rewrite cursor_of_Serving. intros H. injection H as <-.
  assert (Hs : Forall (fun doc : Doc => doc !! "featured" = Some (VBool f))
                 (sort_desc "created_at"
                    (List.filter (doc_matches (query_of (Some f)))
                                 (default [] (c !! "listing"))))).
  { apply Forall_sort_desc, List.Forall_forall. intros doc Hin.
    apply List.filter_In in Hin. apply doc_matches_featured, Hin. }
  destruct (truthy limit); [|exact Hs].
  destruct (default 0 limit =? 0); [exact Hs|].
  apply Forall_take, Hs.
Qed.

Lemma cursor_limited d wanted (n : Z) docs :
  0 < n ->
  cursor_of d wanted (Some n) = Returned docs ->
  (length docs <= Z.to_nat n)%nat.
Proof.
  intros Hn. destruct d as [|c]; [rewrite cursor_of_Unreachable; discriminate|].
  assert (E : (n =? 0) = false) by (apply Z.eqb_neq; lia).
  rewrite cursor_of_Serving. cbn [truthy default]. rewrite E. cbn [negb].
  cbv beta iota. intros H. injection H as <-.
  rewrite Z.abs_eq by lia. rewrite E, length_take. lia.
Qed.

Lemma live_records_inv py_str database wanted limit r rs :
  live_records py_str database wanted limit = Returned (r :: rs) ->
  exists m d docs,
    database = Some m /\ db m = Some d
    /\ cursor_of d wanted limit = Returned docs
    /\ mapM (fun doc => ListingOut_validate (prepare py_str doc)) docs
       = Some (r :: rs).
Proof.
  unfold live_records. intros H.
  destruct database as [m|]; [|discriminate].
  destruct (db m) as [d|] eqn:Hdb; [|discriminate].
  destruct (cursor_of d wanted limit) as [docs|] eqn:Hc; [|discriminate].
  destruct (mapM _ docs) as [rs'|] eqn:Hm; [|discriminate].
  injection H as ->. exists m, d, docs. repeat split; reflexivity || assumption.
Qed.

(** ** The fallback filters, on records *)

Lemma keep_featured_Forall (f : bool) rs :
  Forall (fun r => featured r = f) (keep_featured (Some f) rs).
Proof.
  cbn. apply List.Forall_forall. intros r Hin.
  apply List.filter_In in Hin. destruct Hin as [_ H].
  apply Bool.eqb_prop, H.
Qed.

Lemma keep_featured_sublist (P : ListingOut -> Prop) wanted rs :
  Forall P rs -> Forall P (keep_featured wanted rs).
Proof.
  intros H. destruct wanted as [f|]; [|exact H].
  unfold keep_featured. apply List.Forall_forall. intros r Hin.
  apply List.filter_In in Hin. destruct Hin as [Hin _].
  revert r Hin. apply List.Forall_forall, H.
Qed.

Lemma slice_to_sublist {A} (P : A -> Prop) (xs : list A) n :
  Forall P xs -> Forall P (slice_to xs n).
Proof. intros H. unfold slice_to. destruct (0 <=? n); apply Forall_take, H. Qed.

Lemma keep_limit_Forall {A} (P : A -> Prop) limit (xs : list A) :
  Forall P xs -> Forall P (keep_limit limit xs).
Proof. destruct limit; [apply slice_to_sublist|auto]. Qed.

Lemma slice_to_length {A} (xs : list A) n :
  0 <= n -> (length (slice_to xs n) <= Z.to_nat n)%nat.
Proof.
  intros Hn. unfold slice_to.
  destruct (0 <=? n) eqn:E; [|apply Z.leb_gt in E; lia].
  rewrite length_take. lia.
Qed.

Lemma listings_answer_cases py_str database wanted limit :
  (served_live py_str database wanted limit = true
   /\ live_records py_str database wanted limit
      = Returned (listings_answer py_str database wanted limit))
  \/ (served_live py_str database wanted limit = false
      /\ listings_answer py_str database wanted limit = demo_records wanted limit).
Proof.
  unfold served_live, listings_answer.
  destruct (live_records py_str database wanted limit) as [[|r rs]|e]; auto.
Qed.

Lemma unavailable_not_live py_str database wanted limit :
  store_unavailable database wanted limit = true ->
  served_live py_str database wanted limit = false.
Proof.
  unfold store_unavailable, served_live, live_records.
  destruct database as [m|]; [|reflexivity].
  destruct (db m) as [d|]; [|reflexivity].
  destruct (cursor_of d wanted limit) as [[|doc docs]|e];
    [reflexivity|discriminate|reflexivity].
Qed.

Lemma validated_all_featured py_str (f : bool) docs rs :
  Forall (fun doc : Doc => doc !! "featured" = Some (VBool f)) docs ->
  mapM (fun doc => ListingOut_validate (prepare py_str doc)) docs = Some rs ->
  Forall (fun r => featured r = f) rs.
Proof.
  intros Hdocs Hmap. apply mapM_Some in Hmap.
  induction Hmap as [|doc r docs' rs' Hv _ IH]; [constructor|].
  inversion Hdocs; subst. constructor; [|apply IH; assumption].
  eapply validated_featured; eassumption.
Qed.

(** * The claims *)

(** C1. For an optional [featured] flag and an optional positive [limit],
    GET /api/listings answers with a list of at most [limit] elements when
    a limit is given, all of whose elements carry the requested [featured]
    flag when one is given, whether the answer comes from the store or from
    the demo data. *)
Theorem listings_respect_filters py_str database
    (wanted : option bool) (limit : option Z) (s : State) :
  init_heap ⊆ heap s ->
  (forall n, limit = Some n -> 0 < n) ->
  exists rs s',
    get_api_listings py_str database wanted limit s = (Http200 rs, s')
    /\ (forall n, limit = Some n -> Z.of_nat (length rs) <= n)
    /\ (forall f, wanted = Some f -> Forall (fun r => featured r = f) rs).
Proof.
  intros Hinit Hpos.
  destruct (get_api_listings_spec py_str database wanted limit s Hinit)
    as (s' & Hrun & _ & _).
  exists (listings_answer py_str database wanted limit), s'.
  split; [exact Hrun|].
  destruct (listings_answer_cases py_str database wanted limit)
    as [[Hlive Hrec]|[_ ->]].
  - (* the answer comes from the store *)
    remember (listings_answer py_str database wanted limit) as rs eqn:Hrs.
    destruct rs as [|r rs].
    { unfold served_live in Hlive. rewrite Hrec in Hlive. discriminate. }
    destruct (live_records_inv _ _ _ _ _ _ Hrec)
      as (m & d & docs & -> & Hdb & Hcur & Hmap).
    split.
    + intros n ->. pose proof (cursor_limited d wanted n docs (Hpos n eq_refl) Hcur).
      pose proof (mapM_length _ _ _ Hmap) as Hlen.
      specialize (Hpos n eq_refl). lia.
    + intros f ->. pose proof (cursor_featured d f limit docs Hcur) as Hdocs.
      eapply validated_all_featured; eassumption.
  - (* the answer comes from the demo data *)
    unfold demo_records. split.
    + intros n ->. cbn [keep_limit].
      pose proof (slice_to_length (keep_featured wanted DEMO_RECORDS) n) as Hlen.
      specialize (Hpos n eq_refl). lia.
    + intros f ->. apply keep_limit_Forall, keep_featured_Forall.
Qed.

Lemma listings_respect_filters_witness :
  exists rs s',
    get_api_listings sample_str (serving sample_docs) (Some true) (Some 1) state0
      = (Http200 rs, s')
    /\ (forall n, Some 1 = Some n -> Z.of_nat (length rs) <= n)
    /\ (forall f, Some true = Some f -> Forall (fun r => featured r = f) rs).
Proof.
  apply (listings_respect_filters sample_str (serving sample_docs)
           (Some true) (Some 1) state0).
  - reflexivity.
  - intros n H. injection H as <-. lia.
Defined.

(** What [create_inquiry] does, in one equation: it always returns an
    acknowledgement, and calls [create_document] once when the module can
    be imported. *)
Lemma create_inquiry_spec database (payload : InquiryIn) (s : State) :
  create_inquiry database payload s =
  (Returned (ack (default "demo" (insertion_outcome database payload))),
   {| heap := heap s;
      inserts := inserts s ++
                 match database with
                 | Some _ => [("inquiry", model_dump payload)]
                 | None => []
                 end |}).
Proof.
  unfold create_inquiry, try_except, insertion_outcome.
  destruct database as [m|]; cbn.
  - unfold bind, call_create_document.
    destruct (create_document m "inquiry" (model_dump payload)); reflexivity.
  - rewrite app_nil_r. destruct s; reflexivity.
Qed.

Lemma ack_status doc_id : ack doc_id !! "status" = Some "ok".
Proof. unfold ack. apply lookup_insert_eq. Qed.

Lemma ack_id doc_id : ack doc_id !! "id" = Some doc_id.
Proof.
  unfold ack. rewrite lookup_insert_ne by discriminate. apply lookup_insert_eq.
Qed.

(** C3. When the store is unavailable (the module cannot be imported, no
    store is configured, the store raises, or the query yields no document)
    and neither [featured] nor [limit] is given, GET /api/listings answers
    with exactly the three demo listings demo-1, demo-2, demo-3, in that
    order. *)
Theorem unavailable_store_gives_demo py_str database (s : State) :
  init_heap ⊆ heap s ->
  store_unavailable database None None = true ->
  exists s',
    get_api_listings py_str database None None s
      = (Http200 [demo_1; demo_2; demo_3], s')
    /\ map id [demo_1; demo_2; demo_3]
       = [Some "demo-1"; Some "demo-2"; Some "demo-3"].
Proof.
  intros Hinit Hun.
  destruct (get_api_listings_spec py_str database None None s Hinit)
    as (s' & Hrun & _ & _).
  exists s'. split; [|reflexivity]. rewrite Hrun.
  destruct (listings_answer_cases py_str database None None)
    as [[Hlive _]|[_ ->]]; [|reflexivity].
  rewrite (unavailable_not_live py_str _ _ _ Hun) in Hlive. discriminate.
Qed.

Lemma unavailable_store_gives_demo_witness :
  exists s',
    get_api_listings sample_str failing None None state0
      = (Http200 [demo_1; demo_2; demo_3], s')
    /\ map id [demo_1; demo_2; demo_3]
       = [Some "demo-1"; Some "demo-2"; Some "demo-3"].
Proof.
  apply (unavailable_store_gives_demo sample_str failing state0);
    reflexivity.
Defined.

(** C8. Against the demo data, [featured=true] answers with exactly demo-1
    and demo-2, in that order, and [limit=1] answers with exactly demo-1. *)
Theorem demo_featured_and_limit py_str database (s : State) :
  init_heap ⊆ heap s ->
  served_live py_str database (Some true) None = false ->
  served_live py_str database None (Some 1) = false ->
  (exists s', get_api_listings py_str database (Some true) None s
              = (Http200 [demo_1; demo_2], s'))
  /\ (exists s', get_api_listings py_str database None (Some 1) s
                 = (Http200 [demo_1], s'))
  /\ map id [demo_1; demo_2] = [Some "demo-1"; Some "demo-2"].
Proof.
  intros Hinit Hf Hl. split; [|split; [|reflexivity]].
  - destruct (get_api_listings_spec py_str database (Some true) None s Hinit)
      as (s' & Hrun & _ & _).
    exists s'. rewrite Hrun.
    destruct (listings_answer_cases py_str database (Some true) None)
      as [[Hlive _]|[_ ->]]; [congruence|reflexivity].
  - destruct (get_api_listings_spec py_str database None (Some 1) s Hinit)
      as (s' & Hrun & _ & _).
    exists s'. rewrite Hrun.
    destruct (listings_answer_cases py_str database None (Some 1))
      as [[Hlive _]|[_ ->]]; [congruence|reflexivity].
Qed.

Lemma demo_featured_and_limit_witness :
  (exists s', get_api_listings sample_str None (Some true) None state0
              = (Http200 [demo_1; demo_2], s'))
  /\ (exists s', get_api_listings sample_str None None (Some 1) state0
                 = (Http200 [demo_1], s'))
  /\ map id [demo_1; demo_2] = [Some "demo-1"; Some "demo-2"].
Proof.
  apply (demo_featured_and_limit sample_str None state0); reflexivity.
Defined.

(** C9. No handler mutates the demo data: after any call of
    [get_listings], whatever the arguments and the backend, every object
    that was in the heap is unchanged, so [DEMO_LISTINGS] still refers to
    the same three records with the same fields; the list returned is a new
    object whenever a filter is given; [create_inquiry] leaves the heap as
    it is. *)
Theorem demo_listings_never_mutated py_str database
    (wanted : option bool) (limit : option Z) (payload : InquiryIn) (s : State) :
  init_heap ⊆ heap s ->
  (exists l s',
     get_listings py_str database wanted limit s = (Returned l, s')
     /\ heap s ⊆ heap s'
     /\ heap s' !! DEMO_LISTINGS = Some (OList [demo_1_loc; demo_2_loc; demo_3_loc])
     /\ heap s' !! demo_1_loc = Some (OListing demo_1)
     /\ heap s' !! demo_2_loc = Some (OListing demo_2)
     /\ heap s' !! demo_3_loc = Some (OListing demo_3)
     /\ (wanted <> None \/ limit <> None -> heap s !! l = None))
  /\ heap (snd (create_inquiry database payload s)) = heap s.
Proof.
  intros Hinit. split.
  - destruct (get_listings_spec py_str database wanted limit s Hinit)
      as (l & s' & Hrun & _ & Hsub & _ & Hl).
    exists l, s'. split; [exact Hrun|]. split; [exact Hsub|].
    assert (Hinit' : init_heap ⊆ heap s') by (etrans; eassumption).
    repeat split; try (eapply lookup_weaken; [|exact Hinit']; reflexivity).
    intros Hfilter. destruct Hl as [(-> & -> & _)|Hnew]; [|exact Hnew].
    destruct Hfilter as [H|H]; contradiction.
  - rewrite create_inquiry_spec. reflexivity.
Qed.

Lemma demo_listings_never_mutated_witness :
  (exists l s',
     get_listings sample_str (serving sample_docs) (Some true) (Some 2) state0
       = (Returned l, s')
     /\ heap state0 ⊆ heap s'
     /\ heap s' !! DEMO_LISTINGS = Some (OList [demo_1_loc; demo_2_loc; demo_3_loc])
     /\ heap s' !! demo_1_loc = Some (OListing demo_1)
     /\ heap s' !! demo_2_loc = Some (OListing demo_2)
     /\ heap s' !! demo_3_loc = Some (OListing demo_3)
     /\ (Some true <> None \/ Some 2 <> None -> heap state0 !! l = None))
  /\ heap (snd (create_inquiry (serving sample_docs)
                  {| name := "Ada"; email := "ada@example.org";
                     message := "Is it still available?";
                     property_id := None |} state0)) = heap state0.
Proof.
  apply (demo_listings_never_mutated sample_str (serving sample_docs)
           (Some true) (Some 2)). reflexivity.
Defined.

(** ** Inquiries *)

Lemma message_ok_false (m : string) :
  (py_len m < 5 \/ 2000 < py_len m)%nat -> message_ok m = false.
Proof.
  intros H. unfold message_ok. apply andb_false_iff.
  destruct H as [H|H]; [left|right]; apply Nat.leb_gt; exact H.
Qed.

Lemma InquiryIn_validate_message validate_email (body : Doc) (m : string) :
  body !! "message" = Some (VStr m) ->
  message_ok m = false ->
  InquiryIn_validate validate_email body = None.
Proof.
  intros Hm Hbad.
  assert (Hf : field_str body "message" = Some m)
    by (unfold field_str; rewrite Hm; reflexivity).
  unfold InquiryIn_validate. rewrite Hf.
  destruct (field_str body "name"); [|reflexivity]. cbn.
  destruct (field_str body "email" ≫= validate_email); [|reflexivity]. cbn.
  rewrite Hbad. rewrite option_guard_False by discriminate. reflexivity.
Qed.

Lemma InquiryIn_validate_email validate_email (body : Doc) (e : string) :
  body !! "email" = Some (VStr e) ->
  validate_email e = None ->
  InquiryIn_validate validate_email body = None.
Proof.
  intros He Hbad.
  assert (Hf : field_str body "email" = Some e)
    by (unfold field_str; rewrite He; reflexivity).
  unfold InquiryIn_validate. rewrite Hf.
  destruct (field_str body "name"); [|reflexivity]. cbn.
  rewrite Hbad. reflexivity.
Qed.

(** C6. A body whose [message] is shorter than 5 or longer than 2000
    characters, or whose [email] the email check refuses, is answered with
    the validation error 422 and the state is untouched: [create_document]
    is not called. *)
Theorem invalid_inquiry_rejected validate_email database (body : Doc) (s : State) :
  (exists m, body !! "message" = Some (VStr m)
             /\ (py_len m < 5 \/ 2000 < py_len m)%nat)
  \/ (exists e, body !! "email" = Some (VStr e) /\ validate_email e = None) ->
  post_api_inquiries validate_email database body s = (Http422, s)
  /\ inserts (snd (post_api_inquiries validate_email database body s)) = inserts s.
Proof.
  intros H.
  assert (Hv : InquiryIn_validate validate_email body = None).
  { destruct H as [(m & Hm & Hlen)|(e & He & Hbad)].
    - eapply InquiryIn_validate_message; [exact Hm|].
      apply message_ok_false, Hlen.
    - eapply InquiryIn_validate_email; eassumption. }
  unfold post_api_inquiries. rewrite Hv. split; reflexivity.
Qed.

Lemma invalid_inquiry_rejected_witness :
  (post_api_inquiries sample_email (serving []) (sample_body "ada@example.org" "héll") state0
     = (Http422, state0)
   /\ inserts (snd (post_api_inquiries sample_email (serving [])
                      (sample_body "ada@example.org" "héll") state0))
      = inserts state0)
  /\ (post_api_inquiries sample_email (serving [])
        (sample_body "ada.example.org" "Is it still available?") state0
      = (Http422, state0)
      /\ inserts (snd (post_api_inquiries sample_email (serving [])
                         (sample_body "ada.example.org" "Is it still available?")
                         state0))
         = inserts state0).
Proof.
  split.
  - apply (invalid_inquiry_rejected sample_email (serving [])
             (sample_body "ada@example.org" "héll") state0).
    left. exists "héll". split; [reflexivity|]. left. cbn. lia.
  - apply (invalid_inquiry_rejected sample_email (serving [])
             (sample_body "ada.example.org" "Is it still available?") state0).
    right. exists "ada.example.org". split; reflexivity.
Defined.

(** C2, as the code has it. For a validated payload POST /api/inquiries
    answers 200 with status "ok" whether or not the insertion succeeds; the
    [id] is the sentinel "demo" when the import or the insertion failed and
    the identifier the insertion produced when it succeeded. So the [id]
    is "demo" exactly when persistence failed or the store itself produced
    the identifier "demo". *)
Theorem inquiry_always_acknowledged validate_email database
    (body : Doc) (payload : InquiryIn) (s : State) :
  InquiryIn_validate validate_email body = Some payload ->
  exists a s',
    post_api_inquiries validate_email database body s = (Http200 a, s')
    /\ a !! "status" = Some "ok"
    /\ (insertion_outcome database payload = None -> a !! "id" = Some "demo")
    /\ (forall doc_id, insertion_outcome database payload = Some doc_id ->
                       a !! "id" = Some doc_id)
    /\ (a !! "id" = Some "demo"
        <-> insertion_outcome database payload = None
            \/ insertion_outcome database payload = Some "demo").
Proof.
  intros Hv. unfold post_api_inquiries. rewrite Hv, create_inquiry_spec.
  eexists _, _. split; [reflexivity|].
  split; [apply ack_status|]. rewrite ack_id.
  destruct (insertion_outcome database payload) as [i|]; cbn.
  - split; [discriminate|]. split; [intros ? [= <-]; reflexivity|].
    split.
    + intros [= ->]. right. reflexivity.
    + intros [H|[= ->]]; [discriminate|reflexivity].
  - split; [reflexivity|]. split; [discriminate|].
    split; [intros _; left; reflexivity|reflexivity].
Qed.

Lemma inquiry_always_acknowledged_witness :
  exists a s',
    post_api_inquiries sample_email failing
      (sample_body "ada@example.org" "Is it still available?") state0
      = (Http200 a, s')
    /\ a !! "status" = Some "ok"
    /\ ((None : option string) = None -> a !! "id" = Some "demo")
    /\ (forall doc_id, (None : option string) = Some doc_id ->
                       a !! "id" = Some doc_id)
    /\ (a !! "id" = Some "demo"
        <-> (None : option string) = None
            \/ (None : option string) = Some "demo").
Proof.
  apply (inquiry_always_acknowledged sample_email failing
           (sample_body "ada@example.org" "Is it still available?")
           {| name := "Ada"; email := "ada@example.org";
              message := "Is it still available?"; property_id := None |}
           state0).
  reflexivity.
Defined.

(** C2, as stated, fails: when the insertion succeeds and the store hands
    out the identifier "demo", the [id] is "demo" although nothing
    failed. *)
Lemma demo_id_without_failure :
  let payload := {| name := "Ada"; email := "ada@example.org";
                    message := "Is it still available?"; property_id := None |} in
  exists a s',
    post_api_inquiries sample_email naming_demo
      (sample_body "ada@example.org" "Is it still available?") state0
      = (Http200 a, s')
    /\ insertion_outcome naming_demo payload = Some "demo"
    /\ inserts s' = [("inquiry", model_dump payload)]
    /\ a !! "id" = Some "demo"
    /\ ~ (a !! "id" = Some "demo" <-> insertion_outcome naming_demo payload = None).
Proof.
  eexists _, _. split; [vm_compute; reflexivity|].
  split; [reflexivity|]. split; [reflexivity|]. split; [reflexivity|].
  intros [H _]. specialize (H eq_refl). discriminate.
Qed.

(** C7. Whatever the arguments and the backend, neither handler raises:
    [get_listings] returns a list and the endpoint answers 200, an
    exception in the [try] block ends in the answer of the fallback branch,
    and [create_inquiry] returns an acknowledgement, which the endpoint
    answers with 200 for every validated payload. *)
Theorem handlers_never_raise py_str validate_email database
    (wanted : option bool) (limit : option Z)
    (body : Doc) (payload : InquiryIn) (s : State) :
  init_heap ⊆ heap s ->
  InquiryIn_validate validate_email body = Some payload ->
  (exists l s', get_listings py_str database wanted limit s = (Returned l, s'))
  /\ (exists rs s', get_api_listings py_str database wanted limit s = (Http200 rs, s'))
  /\ (forall e, live_records py_str database wanted limit = Raised e ->
        exists s', get_api_listings py_str database wanted limit s
                   = (Http200 (demo_records wanted limit), s'))
  /\ (exists a s', create_inquiry database payload s = (Returned a, s'))
  /\ (exists a s', post_api_inquiries validate_email database body s = (Http200 a, s')).
Proof.
  intros Hinit Hv.
  destruct (get_listings_spec py_str database wanted limit s Hinit)
    as (l & s1 & Hrun & _).
  destruct (get_api_listings_spec py_str database wanted limit s Hinit)
    as (s2 & Hapi & _).
  split; [eauto|]. split; [eauto|]. split.
  - intros e He. exists s2. rewrite Hapi. unfold listings_answer.
    rewrite He. reflexivity.
  - split.
    + eexists _, _. apply create_inquiry_spec.
    + unfold post_api_inquiries. rewrite Hv, create_inquiry_spec. eauto.
Qed.

Lemma handlers_never_raise_witness :
  (exists l s', get_listings sample_str failing (Some false) (Some (-3)) state0
                = (Returned l, s'))
  /\ (exists rs s', get_api_listings sample_str failing (Some false) (Some (-3)) state0
                    = (Http200 rs, s'))
  /\ (forall e, live_records sample_str failing (Some false) (Some (-3)) = Raised e ->
        exists s', get_api_listings sample_str failing (Some false) (Some (-3)) state0
                   = (Http200 (demo_records (Some false) (Some (-3))), s'))
  /\ (exists a s', create_inquiry failing
                     {| name := "Ada"; email := "ada@example.org";
                        message := "Is it still available?";
                        property_id := None |} state0 = (Returned a, s'))
  /\ (exists a s', post_api_inquiries sample_email failing
                     (sample_body "ada@example.org" "Is it still available?") state0
                   = (Http200 a, s')).
Proof.
  apply (handlers_never_raise sample_str sample_email failing
           (Some false) (Some (-3))
           (sample_body "ada@example.org" "Is it still available?")
           {| name := "Ada"; email := "ada@example.org";
              message := "Is it still available?"; property_id := None |}
           state0); reflexivity.
Defined.

(** C10. GET /api/listings takes any integer [limit]. From the demo data
    the answer is the Python slice of the filtered list up to [limit]: the
    empty list for 0, and all but the last element for -1. From the store
    a [limit] of 0 is ignored: the answer is the one for no limit. *)
Theorem limit_is_not_checked py_str database (wanted : option bool) (s : State) :
  init_heap ⊆ heap s ->
  (forall n, exists rs s',
     get_api_listings py_str database wanted (Some n) s = (Http200 rs, s'))
  /\ (forall n, served_live py_str database wanted (Some n) = false ->
        exists s', get_api_listings py_str database wanted (Some n) s
                   = (Http200 (slice_to (keep_featured wanted DEMO_RECORDS) n), s'))
  /\ (served_live py_str database wanted (Some 0) = false ->
        exists s', get_api_listings py_str database wanted (Some 0) s
                   = (Http200 [], s'))
  /\ (served_live py_str database None (Some (-1)) = false ->
        exists s', get_api_listings py_str database None (Some (-1)) s
                   = (Http200 [demo_1; demo_2], s'))
  /\ (served_live py_str database wanted None = true ->
        exists rs s0 s1,
          get_api_listings py_str database wanted None s = (Http200 rs, s0)
          /\ get_api_listings py_str database wanted (Some 0) s = (Http200 rs, s1)
          /\ live_records py_str database wanted None = Returned rs).
Proof.
  intros Hinit.
  assert (Hdemo : forall w n, served_live py_str database w (Some n) = false ->
    exists s', get_api_listings py_str database w (Some n) s
               = (Http200 (slice_to (keep_featured w DEMO_RECORDS) n), s')).
  { intros w n Hlive.
    destruct (get_api_listings_spec py_str database w (Some n) s Hinit)
      as (s' & Hrun & _).
    exists s'. rewrite Hrun.
    destruct (listings_answer_cases py_str database w (Some n))
      as [[Hl _]|[_ ->]]; [congruence|reflexivity]. }
  split; [|split; [|split; [|split]]].
  - intros n.
    destruct (get_api_listings_spec py_str database wanted (Some n) s Hinit)
      as (s' & Hrun & _). eauto.
  - intros n. apply Hdemo.
  - intros Hlive. destruct (Hdemo wanted 0 Hlive) as (s' & Hrun).
    exists s'. rewrite Hrun. reflexivity.
  - intros Hlive. destruct (Hdemo None (-1) Hlive) as (s' & Hrun).
    exists s'. rewrite Hrun. reflexivity.
  - intros Hlive.
    destruct (get_api_listings_spec py_str database wanted None s Hinit)
      as (s0 & Hrun0 & _).
    destruct (get_api_listings_spec py_str database wanted (Some 0) s Hinit)
      as (s1 & Hrun1 & _).
    exists (listings_answer py_str database wanted None), s0, s1.
    split; [exact Hrun0|]. split.
    + rewrite Hrun1. unfold listings_answer, served_live in *.
      change (live_records py_str database wanted (Some 0))
        with (live_records py_str database wanted None).
      destruct (live_records py_str database wanted None) as [[|r rs]|e];
        [discriminate|reflexivity|discriminate].
    + destruct (listings_answer_cases py_str database wanted None)
        as [[_ Hrec]|[Hl _]]; [exact Hrec|congruence].
Qed.

Lemma limit_is_not_checked_witness :
  (forall n, exists rs s',
     get_api_listings sample_str (serving sample_docs) None (Some n) state0
       = (Http200 rs, s'))
  /\ (forall n, served_live sample_str (serving sample_docs) None (Some n) = false ->
        exists s', get_api_listings sample_str (serving sample_docs) None (Some n) state0
                   = (Http200 (slice_to (keep_featured None DEMO_RECORDS) n), s'))
  /\ (served_live sample_str (serving sample_docs) None (Some 0) = false ->
        exists s', get_api_listings sample_str (serving sample_docs) None (Some 0) state0
                   = (Http200 [], s'))
  /\ (served_live sample_str (serving sample_docs) None (Some (-1)) = false ->
        exists s', get_api_listings sample_str (serving sample_docs) None (Some (-1)) state0
                   = (Http200 [demo_1; demo_2], s'))
  /\ (served_live sample_str (serving sample_docs) None None = true ->
        exists rs s0 s1,
          get_api_listings sample_str (serving sample_docs) None None state0
            = (Http200 rs, s0)
          /\ get_api_listings sample_str (serving sample_docs) None (Some 0) state0
             = (Http200 rs, s1)
          /\ live_records sample_str (serving sample_docs) None None = Returned rs).
Proof.
  apply (limit_is_not_checked sample_str (serving sample_docs) None state0).
  reflexivity.
Defined.

(** ** Listings and the non-negativity invariant *)

Lemma cursor_Forall (P : Doc -> Prop) collections wanted limit docs :
  Forall P (default [] (collections !! "listing")) ->
  cursor_of (Serving collections) wanted limit = Returned docs ->
  Forall P docs.
Proof.
  intros Hall. rewrite cursor_of_Serving. intros H. injection H as <-.
  assert (Hs : Forall P (sort_desc "created_at"
                           (List.filter (doc_matches (query_of wanted))
                                        (default [] (collections !! "listing"))))).
  { apply Forall_sort_desc, List.Forall_forall. intros doc Hin.
    apply List.filter_In in Hin. destruct Hin as [Hin _].
    revert doc Hin. apply List.Forall_forall, Hall. }
  destruct (truthy limit); [|exact Hs].
  destruct (default 0 limit =? 0); [exact Hs|apply Forall_take, Hs].
Qed.

(** A document that the [Listing] schema accepts validates to a record
    within the invariant. *)
Lemma validated_nonneg py_str (doc : Doc) (r : ListingOut) :
  is_Some (Listing_validate doc) ->
  ListingOut_validate (prepare py_str doc) = Some r ->
  nonneg_out r.
Proof.
  intros [l Hl] Hr.
  apply Listing_validate_inv in Hl.
  destruct Hl as (Hp & Hp0 & Hb & Hb0 & Hba & Hba0 & Hsq & Hsq0).
  apply ListingOut_validate_inv in Hr.
  destruct Hr as (Rp & Rb & Rba & Rsq & _).
  rewrite prepare_field_int in Rp, Rb, Rsq by discriminate.
  rewrite prepare_field_float in Rba by discriminate.
  assert (price r = l_price l) by congruence.
  assert (beds r = l_beds l) by congruence.
  assert (baths r = l_baths l) by congruence.
  assert (sqft r = l_sqft l) by congruence.
  unfold nonneg_out. repeat split; congruence.
Qed.

Lemma validated_all_nonneg py_str docs rs :
  Forall (fun doc => is_Some (Listing_validate doc)) docs ->
  mapM (fun doc => ListingOut_validate (prepare py_str doc)) docs = Some rs ->
  Forall nonneg_out rs.
Proof.
  intros Hdocs Hmap. apply mapM_Some in Hmap.
  induction Hmap as [|doc r docs' rs' Hv _ IH]; [constructor|].
  inversion Hdocs; subst. constructor; [|apply IH; assumption].
  eapply validated_nonneg; eassumption.
Qed.

Lemma demo_records_nonneg : Forall nonneg_out DEMO_RECORDS.
Proof.
  repeat constructor; cbn; try lia; unfold Qle; cbn; lia.
Qed.

(** C5, as the code has it. Every record the [Listing] schema accepts and
    every demo record satisfies price, beds, baths, sqft >= 0; the listings
    GET /api/listings answers with satisfy it when every document of the
    collection is one the [Listing] schema accepts ([ListingOut] itself
    carries no bound). *)
Theorem listings_nonneg_for_valid_store py_str database
    (wanted : option bool) (limit : option Z) (s : State) :
  init_heap ⊆ heap s ->
  Forall (fun doc => is_Some (Listing_validate doc)) (listing_docs database) ->
  (forall doc l, Listing_validate doc = Some l -> nonneg_listing l)
  /\ Forall nonneg_out DEMO_RECORDS
  /\ exists rs s',
       get_api_listings py_str database wanted limit s = (Http200 rs, s')
       /\ Forall nonneg_out rs.
Proof.
  intros Hinit Hvalid. split; [|split; [apply demo_records_nonneg|]].
  { intros doc l Hl. apply Listing_validate_inv in Hl.
    unfold nonneg_listing. tauto. }
  destruct (get_api_listings_spec py_str database wanted limit s Hinit)
    as (s' & Hrun & _).
  exists (listings_answer py_str database wanted limit), s'.
  split; [exact Hrun|].
  destruct (listings_answer_cases py_str database wanted limit)
    as [[Hlive Hrec]|[_ ->]].
  - remember (listings_answer py_str database wanted limit) as rs eqn:Hrs.
    destruct rs as [|r rs]; [constructor|].
    destruct (live_records_inv _ _ _ _ _ _ Hrec)
      as (m & d & docs & -> & Hdb & Hcur & Hmap).
    assert (Hdocs : Forall (fun doc => is_Some (Listing_validate doc)) docs).
    { destruct d as [|c]; [rewrite cursor_of_Unreachable in Hcur; discriminate|].
      eapply cursor_Forall; [|exact Hcur].
      unfold listing_docs in Hvalid. rewrite Hdb in Hvalid. exact Hvalid. }
    eapply validated_all_nonneg; eassumption.
  - unfold demo_records.
    apply keep_limit_Forall, keep_featured_sublist, demo_records_nonneg.
Qed.

Lemma listings_nonneg_for_valid_store_witness :
  (forall doc l, Listing_validate doc = Some l -> nonneg_listing l)
  /\ Forall nonneg_out DEMO_RECORDS
  /\ exists rs s',
       get_api_listings sample_str (serving sample_docs) None None state0
         = (Http200 rs, s')
       /\ Forall nonneg_out rs.
Proof.
  apply (listings_nonneg_for_valid_store sample_str (serving sample_docs)
           None None state0).
  - reflexivity.
  - repeat constructor; eexists; reflexivity.
Defined.

(** C5, as stated, fails: a stored document with a negative price is
    answered as it is. *)
Lemma negative_price_is_served :
  exists rs s',
    get_api_listings sample_str (serving [sample_doc "65a9" 5 false (-7)])
      None None state0 = (Http200 rs, s')
    /\ ~ Forall nonneg_out rs.
Proof.
  eexists _, _. split; [vm_compute; reflexivity|].
  intros H. inversion H as [|r rs Hr _]; subst.
  destruct Hr as [Hp _]. cbn in Hp. lia.
Qed.

(** ** Sorting and filtering commute *)

Section Sorting.

Variable key : string.








End Sorting.







(** *** The creation-time order, when no two documents tie *)

Section Order.

Variable key : string.








End Order.




(** * Further properties of the code *)

(** ** GET /test *)

Lemma env_truthy_iff (v : option string) :
  env_truthy v = true <-> exists s, v = Some s /\ s <> "".
Proof.
  unfold env_truthy. destruct v as [s|].
  - rewrite negb_true_iff. split.
    + intros H. exists s. split; [reflexivity|]. apply String.eqb_neq, H.
    + intros (s' & [= <-] & Hne). apply String.eqb_neq, Hne.
  - split; [discriminate|]. intros (s & H & _). discriminate.
Qed.

Lemma set_or_not_Set (v : option string) :
  set_or_not v = VStr "✅ Set" <-> env_truthy v = true.
Proof.
  unfold set_or_not. destruct (env_truthy v); split; try reflexivity;
    discriminate.
Qed.

(** X1. The [database_url] and [database_name] of the diagnostics depend on
    the environment alone: each says "Set" exactly when its variable is set
    to a non-empty string, whatever the [database] module does. The name of
    the store, written inside the [try] block, is always overwritten. *)
Theorem diagnostics_env_fields (import : DbImport) (getenv : string -> option string) :
  test_database import getenv !! "database_url"
    = Some (set_or_not (getenv "DATABASE_URL"))
  /\ test_database import getenv !! "database_name"
     = Some (set_or_not (getenv "DATABASE_NAME"))
  /\ (test_database import getenv !! "database_url" = Some (VStr "✅ Set")
      <-> exists v, getenv "DATABASE_URL" = Some v /\ v <> "")
  /\ (test_database import getenv !! "database_name" = Some (VStr "✅ Set")
      <-> exists v, getenv "DATABASE_NAME" = Some v /\ v <> "").
Proof.
  assert (Hu : test_database import getenv !! "database_url"
               = Some (set_or_not (getenv "DATABASE_URL"))).
  { unfold test_database. cbv zeta.
    rewrite lookup_insert_ne by discriminate. apply lookup_insert_eq. }
  assert (Hn : test_database import getenv !! "database_name"
               = Some (set_or_not (getenv "DATABASE_NAME"))).
  { unfold test_database. cbv zeta. apply lookup_insert_eq. }
  split; [exact Hu|]. split; [exact Hn|]. rewrite Hu, Hn. split.
  - rewrite <- env_truthy_iff, <- set_or_not_Set. split; congruence.
  - rewrite <- env_truthy_iff, <- set_or_not_Set. split; congruence.
Qed.

(** The fields that the block after the [try] leaves alone. *)
Lemma test_database_before_env (import : DbImport) getenv (k : string) :
  k <> "database_url" -> k <> "database_name" ->
  test_database import getenv !! k =
  match import with
  | Imported (Some handle) =>
      match list_collection_names handle with
      | Names collections =>
          if decide (k = "database") then Some (VStr "✅ Connected & Working")
          else if decide (k = "collections") then Some (VStrList (take 10 collections))
          else if decide (k = "connection_status") then Some (VStr "Connected")
          else if decide (k = "backend") then Some (VStr "✅ Running")
          else None
      | ListFails e =>
          if decide (k = "database")
          then Some (VStr ("⚠️  Connected but Error: " +:+ first_50 e))
          else if decide (k = "collections") then Some (VStrList [])
          else if decide (k = "connection_status") then Some (VStr "Connected")
          else if decide (k = "backend") then Some (VStr "✅ Running")
          else None
      end
  | other =>
      if decide (k = "database")
      then Some (VStr match other with
                      | Imported _ => "⚠️  Available but not initialized"
                      | ImportMissing =>
                          "❌ Database module not found (run enable-database first)"
                      | ImportFails e => "❌ Error: " +:+ first_50 e
                      end)
      else if decide (k = "collections") then Some (VStrList [])
      else if decide (k = "connection_status") then Some (VStr "Not Connected")
      else if decide (k = "backend") then Some (VStr "✅ Running")
      else None
  end.
Proof.
  intros H1 H2. unfold test_database. cbv zeta.
  rewrite lookup_insert_ne by congruence.
  rewrite lookup_insert_ne by congruence.
  destruct import as [|e|[handle|]];
    [| |destruct (list_collection_names handle) as [names|e]|];
    repeat (rewrite lookup_insert; case_decide; [subst k; repeat case_decide; try congruence; try reflexivity|]);
    try rewrite lookup_empty; repeat case_decide; congruence.
Qed.

(** X2. The diagnostics list at most ten collection names: the first ten
    the store names when it can be asked, and none in every other case
    (the import fails, no store is configured, or the listing raises). *)
Theorem diagnostics_collections (import : DbImport) (getenv : string -> option string) :
  exists names,
    test_database import getenv !! "collections" = Some (VStrList names)
    /\ (length names <= 10)%nat
    /\ (forall handle all,
          import = Imported (Some handle) ->
          list_collection_names handle = Names all ->
          names = take 10 all)
    /\ ((forall handle all,
           import = Imported (Some handle) ->
           list_collection_names handle <> Names all) ->
        names = [])
    /\ (names <> [] ->
        test_database import getenv !! "database"
          = Some (VStr "✅ Connected & Working")).
Proof.
  rewrite !test_database_before_env by discriminate.
  destruct import as [|e|[handle|]];
    [| |destruct (list_collection_names handle) as [all|e] eqn:Hl|].
  - exists []. cbn. split; [reflexivity|]. split; [lia|].
    split; [intros h a H; discriminate|]. split; [reflexivity|congruence].
  - exists []. cbn. split; [reflexivity|]. split; [lia|].
    split; [intros h a H; discriminate|]. split; [reflexivity|congruence].
  - exists (take 10 all). cbn. split; [reflexivity|].
    split; [rewrite length_take; lia|].
    split; [intros h a H Ha; injection H as <-; congruence|].
    split; [|reflexivity].
    intros Hno. exfalso. exact (Hno handle all eq_refl Hl).
  - exists []. cbn. split; [reflexivity|]. split; [lia|].
    split; [intros h a H Ha; injection H as <-; congruence|].
    split; [reflexivity|congruence].
  - exists []. cbn. split; [reflexivity|]. split; [lia|].
    split; [intros h a H; discriminate|]. split; [reflexivity|congruence].
Qed.

(** X3. The diagnostics always report the backend as running; the
    connection is reported as connected exactly when the module imports and
    a store is configured, and the store as connected and working exactly
    when, in addition, its collections can be listed. *)
Theorem diagnostics_status (import : DbImport) (getenv : string -> option string) :
  test_database import getenv !! "backend" = Some (VStr "✅ Running")
  /\ (test_database import getenv !! "connection_status" = Some (VStr "Connected")
      <-> exists handle, import = Imported (Some handle))
  /\ (test_database import getenv !! "database" = Some (VStr "✅ Connected & Working")
      <-> exists handle names,
            import = Imported (Some handle)
            /\ list_collection_names handle = Names names).
Proof.
  rewrite !test_database_before_env by discriminate.
  destruct import as [|e|[handle|]];
    [| |destruct (list_collection_names handle) as [all|e] eqn:Hl|]; cbn.
  - split; [reflexivity|]. split; (split; [discriminate|]).
    + intros (h & H). discriminate.
    + intros (h & a & H & _). discriminate.
  - split; [reflexivity|]. split; (split; [discriminate|]).
    + intros (h & H). discriminate.
    + intros (h & a & H & _). discriminate.
  - split; [reflexivity|]. split; (split; [intros _; eauto|reflexivity]).
  - split; [reflexivity|]. split; [split; [intros _; eauto|reflexivity]|].
    split; [discriminate|].
    intros (h & a & H & Ha). injection H as <-. congruence.
  - split; [reflexivity|]. split; (split; [discriminate|]).
    + intros (h & H). discriminate.
    + intros (h & a & H & _). discriminate.
Qed.

Lemma py_take_len (n : nat) (text : string) :
  py_len (py_take n text) = Nat.min n (py_len text).
Proof.
  revert n. induction text as [|c rest IH]; intros n; cbn.
  - destruct n; reflexivity.
  - destruct (is_continuation c) eqn:E; cbn.
    + rewrite E. apply IH.
    + destruct n as [|n]; cbn; [reflexivity|]. rewrite E, IH. reflexivity.
Qed.

Lemma py_take_all (n : nat) (text : string) :
  (py_len text <= n)%nat -> py_take n text = text.
Proof.
  revert n. induction text as [|c rest IH]; intros n; cbn; [reflexivity|].
  destruct (is_continuation c).
  - intros H. rewrite IH by exact H. reflexivity.
  - destruct n as [|n]; [lia|]. intros H. rewrite IH by lia. reflexivity.
Qed.

Lemma py_take_drop (n : nat) (text : string) :
  text = py_take n text +:+ py_drop n text.
Proof.
  revert n. induction text as [|c rest IH]; intros n; cbn; [reflexivity|].
  destruct (is_continuation c).
  - change (String c rest = String c (py_take n rest +:+ py_drop n rest)).
    f_equal. apply IH.
  - destruct n as [|n]; [reflexivity|].
    change (String c rest = String c (py_take n rest +:+ py_drop n rest)).
    f_equal. apply IH.
Qed.

Lemma py_drop_starts (n : nat) (text : string) :
  starts_character (py_drop n text) = true.
Proof.
  revert n. induction text as [|c rest IH]; intros n; cbn; [reflexivity|].
  destruct (is_continuation c) eqn:E; [apply IH|].
  destruct n as [|n]; [cbn; rewrite E; reflexivity|apply IH].
Qed.

(** X4. When the import raises another exception than [ImportError], the
    diagnostics give "Error: " and the first fifty characters of its text;
    when the listing of collections raises, "Connected but Error: " and
    the first fifty characters of its text. The quote is cut between two
    characters, and is the whole text when that has fifty at most. *)
Theorem diagnostics_error_text (import : DbImport)
    (getenv : string -> option string) (e : string) :
  (import = ImportFails e ->
   test_database import getenv !! "database"
     = Some (VStr ("❌ Error: " +:+ first_50 e)))
  /\ (forall handle,
        import = Imported (Some handle) ->
        list_collection_names handle = ListFails e ->
        test_database import getenv !! "database"
          = Some (VStr ("⚠️  Connected but Error: " +:+ first_50 e)))
  /\ e = first_50 e +:+ py_drop 50 e
  /\ starts_character (py_drop 50 e) = true
  /\ py_len (first_50 e) = Nat.min 50 (py_len e)
  /\ ((py_len e <= 50)%nat -> first_50 e = e).
Proof.
  rewrite !test_database_before_env by discriminate.
  split; [intros ->; reflexivity|].
  split; [intros handle -> Hl; rewrite Hl; reflexivity|].
  unfold first_50. split; [apply py_take_drop|].
  split; [apply py_drop_starts|]. split; [apply py_take_len|apply py_take_all].
Qed.

(** ** POST /api/inquiries *)

Lemma field_str_Some (d : Doc) (k : string) (s : string) :
  field_str d k = Some s <-> d !! k = Some (VStr s).
Proof.
  unfold field_str. destruct (d !! k) as [[]|]; split; congruence.
Qed.

Lemma message_ok_iff (m : string) :
  message_ok m = true <-> (5 <= py_len m <= 2000)%nat.
Proof.
  unfold message_ok. rewrite andb_true_iff, !Nat.leb_le. reflexivity.
Qed.

(** X5. A body is accepted as an [InquiryIn] exactly when [name] and
    [message] are strings, [email] is a string the email check accepts,
    the message has between 5 and 2000 characters, both bounds included,
    and [property_id] is absent, null or a string; the payload holds these
    values, with the email as the check normalised it. *)
Theorem inquiry_accepted_iff validate_email (body : Doc) (payload : InquiryIn) :
  InquiryIn_validate validate_email body = Some payload
  <-> body !! "name" = Some (VStr (name payload))
      /\ (exists e, body !! "email" = Some (VStr e)
                    /\ validate_email e = Some (email payload))
      /\ body !! "message" = Some (VStr (message payload))
      /\ (5 <= py_len (message payload) <= 2000)%nat
      /\ field_opt_str body "property_id" = Some (property_id payload).
Proof.
  unfold InquiryIn_validate. split.
  - intros H.
    destruct (field_str body "name") as [n|] eqn:Hn; [|discriminate].
    destruct (field_str body "email") as [e|] eqn:He; [|discriminate].
    cbn in H. destruct (validate_email e) as [e'|] eqn:Hv; [|discriminate].
    destruct (field_str body "message") as [m|] eqn:Hm; [|discriminate].
    cbn in H. destruct (message_ok m) eqn:Hok.
    + rewrite option_guard_True in H by reflexivity. cbn in H.
      destruct (field_opt_str body "property_id") as [p|]; [|discriminate].
      cbn in H. injection H as <-. cbn.
      apply field_str_Some in Hn, He, Hm. apply message_ok_iff in Hok.
      split; [exact Hn|]. split; [eauto|]. split; [exact Hm|].
      split; [exact Hok|reflexivity].
    + rewrite option_guard_False in H by discriminate. discriminate.
  - intros (Hn & (e & He & Hv) & Hm & Hlen & Hp).
    apply field_str_Some in Hn, He, Hm. apply message_ok_iff in Hlen.
    rewrite Hn, He, Hm, Hp. cbn. rewrite Hv. cbn. rewrite Hlen.
    rewrite option_guard_True by reflexivity. cbn.
    destruct payload; reflexivity.
Qed.

Lemma model_dump_lookup (payload : InquiryIn) :
  model_dump payload !! "name" = Some (VStr (name payload))
  /\ model_dump payload !! "email" = Some (VStr (email payload))
  /\ model_dump payload !! "message" = Some (VStr (message payload))
  /\ model_dump payload !! "property_id"
     = Some (match property_id payload with
             | Some p => VStr p
             | None => VNone
             end).
Proof.
  unfold model_dump. repeat split.
Qed.

(** X6. Dumping a payload and validating the dump gives the payload back,
    for a payload whose message is within the bounds and whose email the
    check accepts unchanged. *)
Theorem model_dump_round_trip validate_email (payload : InquiryIn) :
  validate_email (email payload) = Some (email payload) ->
  (5 <= py_len (message payload) <= 2000)%nat ->
  InquiryIn_validate validate_email (model_dump payload) = Some payload.
Proof.
  intros Hv Hlen. apply message_ok_iff in Hlen.
  destruct (model_dump_lookup payload) as (Hn & He & Hm & Hp).
  unfold InquiryIn_validate, field_str, field_opt_str.
  rewrite Hn, He, Hm, Hp. cbn. rewrite Hv. cbn. rewrite Hlen.
  rewrite option_guard_True by reflexivity. cbn.
  destruct payload as [n e m [p|]]; reflexivity.
Qed.

Lemma model_dump_round_trip_witness :
  InquiryIn_validate sample_email
    (model_dump {| name := "Zoé"; email := "zoe@example.org";
                   message := "Allô?"; property_id := Some "65a0" |})
  = Some {| name := "Zoé"; email := "zoe@example.org";
            message := "Allô?"; property_id := Some "65a0" |}.
Proof.
  apply (model_dump_round_trip sample_email
           {| name := "Zoé"; email := "zoe@example.org";
              message := "Allô?"; property_id := Some "65a0" |}).
  - reflexivity.
  - cbn. lia.
Defined.

(** X7. Keys of the body that are no field of [InquiryIn] are ignored:
    adding one changes neither the verdict nor the payload. *)
Theorem inquiry_ignores_other_keys validate_email (body : Doc) (k : string) (v : Value) :
  k <> "name" -> k <> "email" -> k <> "message" -> k <> "property_id" ->
  InquiryIn_validate validate_email (<[k := v]> body)
    = InquiryIn_validate validate_email body.
Proof.
  intros H1 H2 H3 H4.
  unfold InquiryIn_validate, field_str, field_opt_str.
  rewrite !lookup_insert_ne by congruence. reflexivity.
Qed.

Lemma inquiry_ignores_other_keys_witness :
  InquiryIn_validate sample_email
    (<["phone" := VInt 5551234]> (sample_body "ada@example.org" "Hello there"))
  = InquiryIn_validate sample_email (sample_body "ada@example.org" "Hello there").
Proof.
  apply (inquiry_ignores_other_keys sample_email
           (sample_body "ada@example.org" "Hello there") "phone" (VInt 5551234));
    discriminate.
Defined.

(** X8. A request with a valid body calls [create_document] exactly once,
    on the collection [inquiry] with the dump of the payload, when the
    module can be imported, also when the call then raises; it calls
    nothing when the import fails. The heap is left as it was. *)
Theorem inquiry_insert_trace validate_email database
    (body : Doc) (payload : InquiryIn) (s : State) :
  InquiryIn_validate validate_email body = Some payload ->
  let s' := snd (post_api_inquiries validate_email database body s) in
  heap s' = heap s
  /\ inserts s' = (inserts s ++
                   match database with
                   | Some _ => [("inquiry", model_dump payload)]
                   | None => []
                   end)%list.
Proof.
  intros Hv. unfold post_api_inquiries. rewrite Hv, create_inquiry_spec.
  cbn. split; reflexivity.
Qed.

Lemma inquiry_insert_trace_witness :
  let payload := {| name := "Ada"; email := "ada@example.org";
                    message := "Is it still available?"; property_id := None |} in
  let s' := snd (post_api_inquiries sample_email failing
                   (sample_body "ada@example.org" "Is it still available?") state0) in
  heap s' = heap state0
  /\ inserts s' = (inserts state0 ++ [("inquiry", model_dump payload)])%list.
Proof.
  apply (inquiry_insert_trace sample_email failing
           (sample_body "ada@example.org" "Is it still available?")
           {| name := "Ada"; email := "ada@example.org";
              message := "Is it still available?"; property_id := None |}
           state0).
  reflexivity.
Defined.

(** ** [schemas.py] and the models of [main.py] *)

(** X9. The [Inquiry] schema of [schemas.py] and the [InquiryIn] model of
    [main.py] accept the same bodies and read the same values from them. *)
Theorem Inquiry_schema_agrees validate_email (body : Doc) :
  as_InquiryIn <$> Inquiry_validate validate_email body
    = InquiryIn_validate validate_email body.
Proof.
  unfold Inquiry_validate, InquiryIn_validate.
  destruct (field_str body "name"); [|reflexivity]. cbn.
  destruct (field_str body "email" ≫= validate_email); [|reflexivity]. cbn.
  destruct (field_str body "message") as [m|]; [|reflexivity]. cbn.
  destruct (message_ok m).
  - rewrite !option_guard_True by reflexivity. cbn.
    destruct (field_opt_str body "property_id"); reflexivity.
  - rewrite !option_guard_False by discriminate. reflexivity.
Qed.

Section Schemas.

Variable py_str : Value -> string.

Lemma prepare_field_str doc k :
  k <> "id" -> k <> "_id" -> field_str (prepare py_str doc) k = field_str doc k.
Proof. intros. unfold field_str. rewrite prepare_lookup by assumption. reflexivity. Qed.

Lemma prepare_field_opt_str doc k :
  k <> "id" -> k <> "_id" ->
  field_opt_str (prepare py_str doc) k = field_opt_str doc k.
Proof. intros. unfold field_opt_str. rewrite prepare_lookup by assumption. reflexivity. Qed.

Lemma prepare_field_opt_strlist doc k :
  k <> "id" -> k <> "_id" ->
  field_opt_strlist (prepare py_str doc) k = field_opt_strlist doc k.
Proof.
  intros. unfold field_opt_strlist. rewrite prepare_lookup by assumption.
  reflexivity.
Qed.

Lemma prepare_field_str_default doc k dflt :
  k <> "id" -> k <> "_id" ->
  field_str_default (prepare py_str doc) k dflt = field_str_default doc k dflt.
Proof.
  intros. unfold field_str_default. rewrite prepare_lookup by assumption.
  reflexivity.
Qed.

Lemma prepare_field_id doc :
  field_opt_str (prepare py_str doc) "id"
    = Some (Some (py_str (default VNone (doc !! "_id")))).
Proof. unfold field_opt_str. rewrite prepare_id. reflexivity. Qed.

(** The loop body's keyword arguments validate as the document's own
    fields do, under the rendered identifier. *)
Lemma ListingOut_validate_prepare (doc : Doc) :
  ListingOut_validate (prepare py_str doc) =
  (t ← field_str doc "title";
   a ← field_str doc "address";
   c ← field_str doc "city";
   st ← field_str doc "state";
   p ← field_int doc "price";
   b ← field_int doc "beds";
   ba ← field_float doc "baths";
   sq ← field_int doc "sqft";
   im ← field_opt_str doc "image";
   g ← field_opt_strlist doc "gallery";
   f ← field_bool_default doc "featured" false;
   pt ← field_str_default doc "property_type" "House";
   Some {| id := Some (py_str (default VNone (doc !! "_id")));
           title := t; address := a; city := c; state := st;
           price := p; beds := b; baths := ba; sqft := sq; image := im;
           gallery := g; featured := f; property_type := pt |}).
Proof.
  unfold ListingOut_validate.
  rewrite prepare_field_id.
  rewrite !prepare_field_str, !prepare_field_int, prepare_field_float,
    prepare_field_opt_str, prepare_field_opt_strlist, prepare_field_bool,
    prepare_field_str_default by discriminate.
  reflexivity.
Qed.

(** X10. A document the [Listing] schema accepts is accepted by the loop
    of [get_listings] too, into the record with the same field values and
    the rendering of [_id] as [id]. *)
Theorem schema_valid_document_is_served (doc : Doc) (l : Listing) :
  Listing_validate doc = Some l ->
  ListingOut_validate (prepare py_str doc)
    = Some (as_ListingOut (py_str (default VNone (doc !! "_id"))) l).
Proof.
  intros H. rewrite ListingOut_validate_prepare.
  unfold Listing_validate, ge0_int, ge0_float in H.
  destruct (field_str doc "title"); [|discriminate].
  destruct (field_str doc "address"); [|discriminate].
  destruct (field_str doc "city"); [|discriminate].
  destruct (field_str doc "state"); [|discriminate].
  destruct (field_int doc "price") as [p|]; [|discriminate].
  destruct (field_int doc "beds") as [b|]; cbn in H;
    destruct (0 <=? p); try discriminate.
  destruct (field_float doc "baths") as [ba|]; cbn in H;
    destruct (0 <=? b); try discriminate.
  destruct (field_int doc "sqft") as [sq|]; cbn in H;
    destruct (Qle_bool 0 ba); try discriminate.
  cbn in H. destruct (0 <=? sq); try discriminate.
  destruct (field_opt_str doc "image"); [|discriminate].
  destruct (field_opt_strlist doc "gallery"); [|discriminate].
  destruct (field_bool_default doc "featured" false); [|discriminate].
  destruct (field_str_default doc "property_type" "House"); [|discriminate].
  cbn in H. injection H as <-. reflexivity.
Qed.

(** X12. The [id] of a record built from a document is always the
    rendering of the document's [_id]: an [id] field of the document itself
    is overwritten, and a document without [_id] gets the rendering of
    [None]. *)
Theorem served_id_is_rendered_oid (doc : Doc) (r : ListingOut) :
  ListingOut_validate (prepare py_str doc) = Some r ->
  id r = Some (py_str (default VNone (doc !! "_id")))
  /\ prepare py_str doc !! "_id" = None
  /\ (doc !! "_id" = None -> id r = Some (py_str VNone)).
Proof.
  intros H. apply ListingOut_validate_inv in H.
  destruct H as (_ & _ & _ & _ & _ & Hid).
  rewrite prepare_field_id in Hid. injection Hid as Hid.
  split; [symmetry; exact Hid|]. split.
  - unfold prepare. apply lookup_delete_eq.
  - intros Hno. rewrite <- Hid, Hno. reflexivity.
Qed.

End Schemas.

Lemma schema_valid_document_is_served_witness :
  ListingOut_validate (prepare sample_str (sample_doc "65a0" 10 true 500000))
  = Some (as_ListingOut
            (sample_str (default VNone (sample_doc "65a0" 10 true 500000 !! "_id")))
            {| l_title := "Canal House"; l_address := "1 Quay Rd";
               l_city := "Delft"; l_state := "ZH"; l_price := 500000;
               l_beds := 2; l_baths := 3 # 2; l_sqft := 900;
               l_image := None; l_gallery := None; l_featured := true;
               l_property_type := "House" |}).
Proof.
  apply (schema_valid_document_is_served sample_str
           (sample_doc "65a0" 10 true 500000)).
  reflexivity.
Defined.

Lemma served_id_is_rendered_oid_witness :
  id (as_ListingOut "65a0"
        {| l_title := "Canal House"; l_address := "1 Quay Rd";
           l_city := "Delft"; l_state := "ZH"; l_price := 500000;
           l_beds := 2; l_baths := 3 # 2; l_sqft := 900;
           l_image := None; l_gallery := None; l_featured := true;
           l_property_type := "House" |})
    = Some (sample_str (default VNone (sample_doc "65a0" 10 true 500000 !! "_id")))
  /\ prepare sample_str (sample_doc "65a0" 10 true 500000) !! "_id" = None
  /\ (sample_doc "65a0" 10 true 500000 !! "_id" = None ->
      id (as_ListingOut "65a0"
            {| l_title := "Canal House"; l_address := "1 Quay Rd";
               l_city := "Delft"; l_state := "ZH"; l_price := 500000;
               l_beds := 2; l_baths := 3 # 2; l_sqft := 900;
               l_image := None; l_gallery := None; l_featured := true;
               l_property_type := "House" |})
      = Some (sample_str VNone)).
Proof.
  apply (served_id_is_rendered_oid sample_str (sample_doc "65a0" 10 true 500000)).
  reflexivity.
Defined.

(** ** GET /api/listings, further *)

Section Listings.

Variable py_str : Value -> string.

(** X13. One document of the cursor that does not validate discards the
    whole live result: the answer is the demo data under the same
    filters. *)
Theorem invalid_document_gives_demo (m : DatabaseModule) (d : Db)
    (wanted : option bool) (limit : option Z) (docs : list Doc) (s : State) :
  init_heap ⊆ heap s ->
  db m = Some d ->
  cursor_of d wanted limit = Returned docs ->
  Exists (fun doc => ListingOut_validate (prepare py_str doc) = None) docs ->
  exists s',
    get_api_listings py_str (Some m) wanted limit s
      = (Http200 (demo_records wanted limit), s').
Proof.
  intros Hinit Hdb Hcur Hbad.
  destruct (get_api_listings_spec py_str (Some m) wanted limit s Hinit)
    as (s' & Hrun & _).
  exists s'. rewrite Hrun. unfold listings_answer, live_records.
  rewrite Hdb, Hcur.
  rewrite (proj2 (mapM_None _ docs) Hbad). reflexivity.
Qed.

(** X11. A collection whose documents the [Listing] schema accepts is
    answered from the store whenever the query yields a document, with one
    record per document of the cursor. *)
Theorem valid_store_is_served_live (m : DatabaseModule) (d : Db)
    (wanted : option bool) (limit : option Z) (docs : list Doc) (s : State) :
  init_heap ⊆ heap s ->
  db m = Some d ->
  Forall (fun doc => is_Some (Listing_validate doc)) (listing_docs (Some m)) ->
  cursor_of d wanted limit = Returned docs ->
  docs <> [] ->
  exists rs s',
    get_api_listings py_str (Some m) wanted limit s = (Http200 rs, s')
    /\ mapM (fun doc => ListingOut_validate (prepare py_str doc)) docs = Some rs
    /\ length rs = length docs
    /\ served_live py_str (Some m) wanted limit = true.
Proof.
  intros Hinit Hdb Hvalid Hcur Hne.
  assert (Hdocs : Forall (fun doc => is_Some (Listing_validate doc)) docs).
  { destruct d as [|c]; [rewrite cursor_of_Unreachable in Hcur; discriminate|].
    eapply cursor_Forall; [|exact Hcur].
    unfold listing_docs in Hvalid. rewrite Hdb in Hvalid. exact Hvalid. }
  assert (Hsome : is_Some (mapM (fun doc => ListingOut_validate (prepare py_str doc)) docs)).
  { apply mapM_is_Some. eapply Forall_impl; [exact Hdocs|].
    intros doc [l Hl]. cbn. rewrite ListingOut_validate_prepare.
    unfold Listing_validate, ge0_int, ge0_float in Hl.
    destruct (field_str doc "title"); [|discriminate].
    destruct (field_str doc "address"); [|discriminate].
    destruct (field_str doc "city"); [|discriminate].
    destruct (field_str doc "state"); [|discriminate].
    destruct (field_int doc "price") as [p|]; [|discriminate].
    destruct (field_int doc "beds") as [b|]; cbn in Hl;
      destruct (0 <=? p); try discriminate.
    destruct (field_float doc "baths") as [ba|]; cbn in Hl;
      destruct (0 <=? b); try discriminate.
    destruct (field_int doc "sqft") as [sq|]; cbn in Hl;
      destruct (Qle_bool 0 ba); try discriminate.
    cbn in Hl. destruct (0 <=? sq); try discriminate.
    destruct (field_opt_str doc "image"); [|discriminate].
    destruct (field_opt_strlist doc "gallery"); [|discriminate].
    destruct (field_bool_default doc "featured" false); [|discriminate].
    destruct (field_str_default doc "property_type" "House"); [|discriminate].
    cbn. eauto. }
  destruct Hsome as [rs Hrs].
  pose proof (mapM_length _ _ _ Hrs) as Hlen.
  destruct (get_api_listings_spec py_str (Some m) wanted limit s Hinit)
    as (s' & Hrun & _).
  assert (Hlive : live_records py_str (Some m) wanted limit = Returned rs).
  { unfold live_records. rewrite Hdb, Hcur, Hrs. reflexivity. }
  exists rs, s'. rewrite Hrun. unfold listings_answer, served_live. rewrite Hlive.
  destruct rs as [|r rs]; [destruct docs; [congruence|discriminate]|].
  repeat split; assumption.
Qed.

(** X18. The answer of GET /api/listings depends on the backend and the
    arguments only: in any two states that hold the demo data, so before
    and after any other request, the body is the same. *)
Theorem listings_repeatable database (wanted : option bool) (limit : option Z)
    (s1 s2 : State) :
  init_heap ⊆ heap s1 ->
  init_heap ⊆ heap s2 ->
  fst (get_api_listings py_str database wanted limit s1)
    = fst (get_api_listings py_str database wanted limit s2).
Proof.
  intros H1 H2.
  destruct (get_api_listings_spec py_str database wanted limit s1 H1)
    as (s1' & -> & _).
  destruct (get_api_listings_spec py_str database wanted limit s2 H2)
    as (s2' & -> & _).
  reflexivity.
Qed.

(** X19. Without filters the fallback branch returns the module-level
    list object [DEMO_LISTINGS] itself, not a copy. *)
Theorem unfiltered_fallback_is_shared_list database (s : State) :
  init_heap ⊆ heap s ->
  served_live py_str database None None = false ->
  exists s',
    get_listings py_str database None None s = (Returned DEMO_LISTINGS, s').
Proof.
  intros Hinit Hlive.
  destruct (live_listings_spec py_str database None None s)
    as (out & s1 & Hout & _ & _ & Hcase).
  exists s1. unfold get_listings, bind, try_except. rewrite Hout.
  unfold served_live in Hlive.
  destruct (live_records py_str database None None) as [[|r rs]|e];
    [| discriminate |]; subst out; reflexivity.
Qed.

End Listings.

Lemma slice_to_all {A} (xs : list A) (n : Z) :
  Z.of_nat (length xs) <= n -> slice_to xs n = xs.
Proof.
  intros H. unfold slice_to.
  destruct (0 <=? n) eqn:E; [|apply Z.leb_gt in E; lia].
  apply take_ge. lia.
Qed.

Lemma slice_to_none {A} (xs : list A) (n : Z) :
  n <= - Z.of_nat (length xs) -> slice_to xs n = [].
Proof.
  intros H. unfold slice_to. destruct (0 <=? n) eqn:E.
  - apply Z.leb_le in E. assert (length xs = 0%nat) by lia.
    destruct xs; [apply take_nil|discriminate].
  - replace (length xs - Z.to_nat (- n))%nat with 0%nat by lia. reflexivity.
Qed.

Lemma keep_featured_length wanted rs :
  (length (keep_featured wanted rs) <= length rs)%nat.
Proof.
  destruct wanted as [f|]; [|reflexivity]. unfold keep_featured.
  induction rs as [|r rs IH]; [reflexivity|]. cbn.
  destruct (Bool.eqb (featured r) f); cbn; lia.
Qed.

(** X17. In the fallback branch a [limit] of 3 or more changes nothing,
    and a [limit] of -3 or less leaves nothing: the slice is taken on the
    three demo records at most. *)
Theorem demo_limit_beyond_data (wanted : option bool) (n : Z) (s : State) :
  init_heap ⊆ heap s ->
  exists l s',
    demo_listings wanted (Some n) s = (Returned l, s')
    /\ (3 <= n -> deref_list (heap s') l = Some (keep_featured wanted DEMO_RECORDS))
    /\ (n <= -3 -> deref_list (heap s') l = Some []).
Proof.
  intros Hinit.
  destruct (demo_listings_spec wanted (Some n) s Hinit)
    as (l & s' & Hrun & Hder & _).
  exists l, s'. split; [exact Hrun|].
  pose proof (keep_featured_length wanted DEMO_RECORDS) as Hlen.
  change (length DEMO_RECORDS) with 3%nat in Hlen.
  unfold demo_records, keep_limit in Hder. split; intros Hn; rewrite Hder.
  - rewrite slice_to_all by lia. reflexivity.
  - rewrite slice_to_none by lia. reflexivity.
Qed.

Lemma invalid_document_gives_demo_witness :
  exists s',
    get_api_listings sample_str (Some (sample_module [untitled_doc])) (Some true) None state0
      = (Http200 (demo_records (Some true) None), s').
Proof.
  apply (invalid_document_gives_demo sample_str (sample_module [untitled_doc])
           (Serving {["listing" := [untitled_doc]]}) (Some true) None
           [untitled_doc] state0).
  - reflexivity.
  - reflexivity.
  - vm_compute. reflexivity.
  - apply Exists_cons_hd. vm_compute. reflexivity.
Defined.

Lemma valid_store_is_served_live_witness :
  exists rs s',
    get_api_listings sample_str (Some (sample_module sample_docs)) None (Some 2) state0
      = (Http200 rs, s')
    /\ mapM (fun doc => ListingOut_validate (prepare sample_str doc))
         (take 2 (sort_desc "created_at" sample_docs)) = Some rs
    /\ length rs = length (take 2 (sort_desc "created_at" sample_docs))
    /\ served_live sample_str (Some (sample_module sample_docs)) None (Some 2) = true.
Proof.
  apply (valid_store_is_served_live sample_str (sample_module sample_docs)
           (Serving {["listing" := sample_docs]}) None (Some 2)
           (take 2 (sort_desc "created_at" sample_docs)) state0).
  - reflexivity.
  - reflexivity.
  - repeat constructor; eexists; reflexivity.
  - vm_compute. reflexivity.
  - discriminate.
Defined.

Lemma listings_repeatable_witness :
  fst (get_api_listings sample_str (serving sample_docs) (Some true) None state0)
  = fst (get_api_listings sample_str (serving sample_docs) (Some true) None
           (snd (get_api_listings sample_str failing None (Some 1) state0))).
Proof.
  apply (listings_repeatable sample_str (serving sample_docs) (Some true) None
           state0 (snd (get_api_listings sample_str failing None (Some 1) state0))).
  - reflexivity.
  - destruct (get_api_listings_spec sample_str failing None (Some 1) state0)
      as (s' & Hrun & Hsub & _); [reflexivity|].
    rewrite Hrun. exact Hsub.
Defined.

Lemma unfiltered_fallback_is_shared_list_witness :
  exists s',
    get_listings sample_str (serving []) None None state0
      = (Returned DEMO_LISTINGS, s').
Proof.
  apply (unfiltered_fallback_is_shared_list sample_str (serving []) state0);
    reflexivity.
Defined.

Lemma demo_limit_beyond_data_witness :
  exists l s',
    demo_listings (Some true) (Some 7) state0 = (Returned l, s')
    /\ (3 <= 7 -> deref_list (heap s') l = Some (keep_featured (Some true) DEMO_RECORDS))
    /\ (7 <= -3 -> deref_list (heap s') l = Some []).
Proof.
  apply (demo_limit_beyond_data (Some true) 7 state0). reflexivity.
Defined.

(** ** The example schemas of [schemas.py] *)

Lemma User_validate_is_Some (doc : Doc) :
  is_Some (User_validate doc)
  <-> is_Some (field_str doc "name")
      /\ is_Some (field_str doc "email")
      /\ is_Some (field_str doc "address")
      /\ is_Some (field_opt_int doc "age" ≫= age_ok)
      /\ is_Some (field_bool_default doc "is_active" true).
Proof.
  unfold User_validate.
  destruct (field_str doc "name"); cbn;
    [|split; [intros [? ?]|intros ([? ?] & _)]; discriminate].
  destruct (field_str doc "email"); cbn;
    [|split; [intros [? ?]|intros (_ & [? ?] & _)]; discriminate].
  destruct (field_str doc "address"); cbn;
    [|split; [intros [? ?]|intros (_ & _ & [? ?] & _)]; discriminate].
  destruct (field_opt_int doc "age" ≫= age_ok); cbn;
    [|split; [intros [? ?]|intros (_ & _ & _ & [? ?] & _)]; discriminate].
  destruct (field_bool_default doc "is_active" true); cbn;
    [|split; [intros [? ?]|intros (_ & _ & _ & _ & [? ?])]; discriminate].
  split; [intros _; repeat split; eauto|intros _; eauto].
Qed.

Lemma age_ok_is_Some (a : Z) : is_Some (age_ok (Some a)) <-> 0 <= a <= 120.
Proof.
  unfold age_ok.
  destruct (0 <=? a) eqn:E0; destruct (a <=? 120) eqn:E1; cbn;
    try apply Z.leb_le in E0; try apply Z.leb_le in E1;
    try apply Z.leb_gt in E0; try apply Z.leb_gt in E1;
    (split; [intros [? H]; try discriminate; lia|intros H; try lia; eauto]).
Qed.

(** X14. The [User] schema accepts an integer [age] exactly when it lies
    between 0 and 120, both included, the rest of the document being one it
    accepts without an age. *)
Theorem User_age_accepted_iff (doc : Doc) (a : Z) :
  is_Some (User_validate (<["age" := VInt a]> doc))
  <-> is_Some (User_validate (delete "age" doc)) /\ 0 <= a <= 120.
Proof.
  rewrite !User_validate_is_Some.
  unfold field_str, field_opt_int, field_bool_default.
  rewrite lookup_insert_eq, lookup_delete_eq.
  rewrite !lookup_insert_ne by discriminate.
  rewrite !lookup_delete_ne by discriminate.
  change (Some (Some a) ≫= age_ok) with (age_ok (Some a)).
  rewrite age_ok_is_Some.
  change (is_Some (Some None ≫= age_ok)) with (is_Some (Some (@None Z))).
  split.
  - intros (H1 & H2 & H3 & H4 & H5).
    repeat split; try assumption; try lia; eauto.
  - intros ((H1 & H2 & H3 & _ & H5) & H4).
    repeat split; try assumption; try lia.
Qed.

(** X15. A product the [Product] schema accepts has a price that is not
    negative: the float of the document's [price], or the number of an int
    [price] of magnitude 2^53 at most, which a float holds exactly. It is
    in stock unless the document says otherwise. *)
Theorem Product_price_nonneg (doc : Doc) (p : Product) :
  Product_validate doc = Some p ->
  (0 <= p_price p)%Q
  /\ (forall q, doc !! "price" = Some (VFloat q) -> p_price p = q)
  /\ (forall z, doc !! "price" = Some (VInt z) -> Z.abs z <= 2 ^ 53 ->
                p_price p = inject_Z z)
  /\ (doc !! "in_stock" = None -> p_in_stock p = true).
Proof.
  unfold Product_validate, ge0_float. intros H.
  destruct (field_str doc "title"); [|discriminate].
  destruct (field_opt_str doc "description"); [|discriminate].
  destruct (field_float doc "price") as [q|] eqn:Hp; [|discriminate].
  cbn in H. destruct (Qle_bool 0 q) eqn:Hq; [|discriminate].
  destruct (field_str doc "category"); [|discriminate].
  cbn in H. unfold field_bool_default in H. unfold field_float in Hp.
  destruct (doc !! "in_stock") as [[]|] eqn:Hs; try discriminate;
    cbn in H; injection H as <-; cbn;
    (split; [apply Qle_bool_iff, Hq|]);
    (split; [intros q' Hq'; rewrite Hq' in Hp; congruence|]);
    (split; [intros z Hz _; rewrite Hz in Hp; congruence|]);
    intros; congruence.
Qed.

Lemma Product_price_nonneg_witness :
  let doc : Doc := <["title" := VStr "Lamp"]>
                   (<["price" := VInt 12]>
                   (<["category" := VStr "Home"]> ∅)) in
  let p := {| p_title := "Lamp"; p_description := None; p_price := inject_Z 12;
              p_category := "Home"; p_in_stock := true |} in
  (0 <= p_price p)%Q
  /\ (forall q, doc !! "price" = Some (VFloat q) -> p_price p = q)
  /\ (forall z, doc !! "price" = Some (VInt z) -> Z.abs z <= 2 ^ 53 ->
                p_price p = inject_Z z)
  /\ (doc !! "in_stock" = None -> p_in_stock p = true).
Proof.
  apply (Product_price_nonneg
           (<["title" := VStr "Lamp"]>
            (<["price" := VInt 12]>
            (<["category" := VStr "Home"]> ∅)))
           {| p_title := "Lamp"; p_description := None; p_price := inject_Z 12;
              p_category := "Home"; p_in_stock := true |}).
  reflexivity.
Defined.

(** ** The application as a whole *)

Section Serving.

Variable py_str : Value -> string.
Variable validate_email : string -> option string.

Lemma handle_spec (b : Backend) (r : Request) (s : State) :
  init_heap ⊆ heap s ->
  exists a s1,
    handle py_str validate_email b r s = (a, s1)
    /\ no_server_error a
    /\ heap s ⊆ heap s1
    /\ length (inserts s1)
       = (length (inserts s)
          + if reaches_store validate_email (b, r) then 1 else 0)%nat.
Proof.
  intros Hinit. destruct r as [| | |wanted limit|body]; cbn [handle reaches_store].
  - eexists _, s. repeat split; [reflexivity|lia].
  - eexists _, s. repeat split; [reflexivity|lia].
  - eexists _, s. repeat split; [reflexivity|lia].
  - destruct (get_api_listings_spec py_str (b_database b) wanted limit s Hinit)
      as (s1 & Hrun & Hsub & Hins).
    rewrite Hrun. eexists _, s1. split; [reflexivity|]. split; [exact I|].
    split; [exact Hsub|]. rewrite Hins. lia.
  - unfold post_api_inquiries.
    destruct (InquiryIn_validate validate_email body) as [payload|].
    + rewrite create_inquiry_spec. eexists _, _. split; [reflexivity|].
      split; [exact I|]. split; [reflexivity|]. cbn.
      rewrite length_app. destruct (b_database b); reflexivity.
    + eexists _, s. repeat split; [reflexivity|lia].
Qed.

(** X16. Whatever requests arrive, in whatever backends, every one is
    answered, none with a server error; the demo data stay as they were
    initialised and no object of the heap is changed; [create_document] is
    called once for each POST with a valid body that finds the module, and
    never otherwise. *)
Theorem serve_keeps_demo_data (rs : list (Backend * Request)) (s : State) :
  init_heap ⊆ heap s ->
  exists answers s',
    serve py_str validate_email rs s = (answers, s')
    /\ length answers = length rs
    /\ Forall no_server_error answers
    /\ init_heap ⊆ heap s'
    /\ heap s ⊆ heap s'
    /\ length (inserts s')
       = (length (inserts s)
          + length (List.filter (reaches_store validate_email) rs))%nat.
Proof.
  revert s. induction rs as [|[b r] rest IH]; intros s Hinit.
  - exists [], s. split; [reflexivity|]. split; [reflexivity|].
    split; [constructor|]. split; [exact Hinit|].
    split; [reflexivity|cbn; lia].
  - destruct (handle_spec b r s Hinit) as (a & s1 & Hrun & Hok & Hsub & Hins).
    assert (Hinit1 : init_heap ⊆ heap s1) by (etrans; eassumption).
    destruct (IH s1 Hinit1) as (answers & s2 & Hrest & Hlen & Hall & Hi2 & Hsub2 & Hins2).
    exists (a :: answers), s2. cbn [serve]. rewrite Hrun, Hrest.
    split; [reflexivity|]. split; [cbn; lia|].
    split; [constructor; assumption|]. split; [exact Hi2|].
    split; [etrans; eassumption|].
    rewrite Hins2, Hins. cbn [List.filter].
    destruct (reaches_store validate_email (b, r)); cbn; lia.
Qed.

End Serving.

Lemma serve_keeps_demo_data_witness :
  let rs := [(sample_backend, GET_listings (Some true) (Some 0));
             (sample_backend, POST_inquiries (sample_body "ada@example.org" "Hello there"));
             (sample_backend, GET_test);
             (sample_backend, POST_inquiries (sample_body "ada" "Hi"))] in
  exists answers s',
    serve sample_str sample_email rs state0 = (answers, s')
    /\ length answers = length rs
    /\ Forall no_server_error answers
    /\ init_heap ⊆ heap s'
    /\ heap state0 ⊆ heap s'
    /\ length (inserts s')
       = (length (inserts state0)
          + length (List.filter (reaches_store sample_email) rs))%nat.
Proof.
  apply (serve_keeps_demo_data sample_str sample_email
           [(sample_backend, GET_listings (Some true) (Some 0));
            (sample_backend, POST_inquiries (sample_body "ada@example.org" "Hello there"));
            (sample_backend, GET_test);
            (sample_backend, POST_inquiries (sample_body "ada" "Hi"))]
           state0).
  reflexivity.
Defined.
